(** * serverless-webpack-prisma: a shallow embedding of [src/index.ts]

    The plugin class [ServerlessWebpackPrisma] is embedded function by
    function.  JavaScript values coming from the service descriptor and from
    [package.json] are trees of type [json]; the file system, the narration
    callback and the spawned commands are threaded through a state-and-error
    monad [M]; the host's collaborators ([child_process.execSync],
    [JSON.parse], [path.relative]) are section variables. *)

From Stdlib Require Import String Ascii.
From stdpp Require Import base option strings list gmap.

Set Warnings "-register-all".
Local Open Scope string_scope.

(** ** JavaScript values *)

Module JS.

(** A value produced by [JSON.parse] or by the YAML service descriptor.
    A number is identified with its canonical rendering ([String(n)]);
    an object keeps its properties in enumeration order. *)
Inductive json : Type :=
| JNull
| JBool (b : bool)
| JNum (repr : string)
| JStr (s : string)
| JArr (xs : list json)
| JObj (kvs : list (string * json)).

(** [undefined] is [None]. *)
Definition value := option json.

(** lodash [isObject]: arrays and objects. *)
Definition isObject (v : json) : bool :=
  match v with JArr _ | JObj _ => true | _ => false end.

(** [!!v]. *)
Definition truthy (v : json) : bool :=
  match v with
  | JNull => false
  | JBool b => b
  | JNum r => negb (String.eqb r "0" || String.eqb r "NaN")
  | JStr s => negb (String.eqb s EmptyString)
  | JArr _ | JObj _ => true
  end.

Fixpoint assoc (k : string) (kvs : list (string * json)) : option json :=
  match kvs with
  | [] => None
  | (k', v) :: rest => if String.eqb k k' then Some v else assoc k rest
  end.

(** [o[k]] for the property names this program uses (none of them is an
    index, [length], or a member of a builtin prototype). *)
Definition getProp (o : json) (k : string) : value :=
  match o with JObj kvs => assoc k kvs | _ => None end.

(** [k in Object(o)] for such names. *)
Definition hasProp (o : json) (k : string) : bool :=
  match getProp o k with Some _ => true | None => false end.

(** [o[k] = v] on an object: an existing property keeps its place, a new
    one goes last. *)
Fixpoint assign (k : string) (v : json) (kvs : list (string * json))
  : list (string * json) :=
  match kvs with
  | [] => [(k, v)]
  | (k', v') :: rest =>
      if String.eqb k k' then (k, v) :: rest else (k', v') :: assign k v rest
  end.

(** [delete o[k]] on an object. *)
Fixpoint remove (k : string) (kvs : list (string * json))
  : list (string * json) :=
  match kvs with
  | [] => []
  | (k', v') :: rest =>
      if String.eqb k k' then remove k rest else (k', v') :: remove k rest
  end.

(** A named property written on an array is not an element: no later
    [JSON.stringify] shows it, and this program reads the tree in no other
    way, so the array is left as it is. Primitives take no property. *)
Definition setProp (o : json) (k : string) (v : json) : json :=
  match o with JObj kvs => JObj (assign k v kvs) | _ => o end.

Definition delProp (o : json) (k : string) : json :=
  match o with JObj kvs => JObj (remove k kvs) | _ => o end.

(** [String(v)], and the element rendering of [Array.prototype.join]
    ([null] renders as the empty string there). *)
Fixpoint toString (v : json) : string :=
  match v with
  | JNull => "null"
  | JBool true => "true"
  | JBool false => "false"
  | JNum r => r
  | JStr s => s
  | JArr xs =>
      (fix go (l : list json) : string :=
         match l with
         | [] => EmptyString
         | [x] => match x with JNull => EmptyString | _ => toString x end
         | x :: rest =>
             (match x with JNull => EmptyString | _ => toString x end)
               +:+ "," +:+ go rest
         end) xs
  | JObj _ => "[object Object]"
  end.

Definition joinElem (v : json) : string :=
  match v with JNull => EmptyString | _ => toString v end.

(** [xs.join(sep)]. *)
Fixpoint join (sep : string) (xs : list json) : string :=
  match xs with
  | [] => EmptyString
  | [x] => joinElem x
  | x :: rest => joinElem x +:+ sep +:+ join sep rest
  end.

(** [hay.includes(needle)], which is also [!!hay.match(/needle/)] for a
    pattern without metacharacters. *)
Fixpoint includesStr (needle hay : string) : bool :=
  String.prefix needle hay
  || match hay with
     | EmptyString => false
     | String _ rest => includesStr needle rest
     end.

End JS.
Export JS.

(** ** lodash: [get], [set], [unset], [includes] *)

Module Lodash.

(** [stringToPath] on a path without brackets: the segments between dots. *)
Fixpoint splitDots (acc : string) (s : string) : list string :=
  match s with
  | EmptyString => [acc]
  | String c rest =>
      if Ascii.eqb c "."%char then acc :: splitDots EmptyString rest
      else splitDots (acc +:+ String c EmptyString) rest
  end.

Definition stringToPath (p : string) : list string := splitDots EmptyString p.

(** [castPath]: a path that is itself a property of the object is one key
    ([isKey]: [value in Object(object)]); otherwise it is split. Every path
    of this program contains a dot, so [isKey]'s other tests fail. *)
Definition castPath (p : string) (o : json) : list string :=
  if hasProp o p then [p] else stringToPath p.

(** [baseGet] after [castPath]: stop at [null] or [undefined]. *)
Fixpoint walk (o : value) (ks : list string) : value :=
  match ks with
  | [] => o
  | k :: rest =>
      match o with
      | None | Some JNull => None
      | Some v => walk (getProp v k) rest
      end
  end.

Definition baseGet (o : json) (p : string) : value :=
  walk (Some o) (castPath p o).

(** [_.get(object, path)]. *)
Definition get (o : value) (p : string) : value :=
  match o with
  | None | Some JNull => None
  | Some v => baseGet v p
  end.

(** [_.get(object, path, defaultValue)]: the default replaces [undefined]
    only ([null] is returned as it is). *)
Definition getOr (o : value) (p : string) (d : json) : json :=
  match get o p with Some v => v | None => d end.

(** [baseSet]: intermediate values that are not objects are replaced by a
    fresh [{}] (no key of this program is an index). *)
Fixpoint baseSet (o : json) (ks : list string) (v : json) : json :=
  match ks with
  | [] => o
  | [k] => setProp o k v
  | k :: rest =>
      let child :=
        match getProp o k with
        | Some c => if isObject c then c else JObj []
        | None => JObj []
        end in
      setProp o k (baseSet child rest v)
  end.

(** [_.set(object, path, value)], as the tree it leaves behind. *)
Definition set (o : json) (p : string) (v : json) : json :=
  if isObject o then baseSet o (castPath p o) v else o.

(** [baseUnset]: delete the last key on the parent found by [baseGet]. *)
Fixpoint baseUnset (o : json) (ks : list string) : json :=
  match ks with
  | [] => o
  | [k] => delProp o k
  | k :: rest =>
      match getProp o k with
      | Some c => setProp o k (baseUnset c rest)
      | None => o
      end
  end.

(** [_.unset(object, path)], as the tree it leaves behind. *)
Definition unset (o : json) (p : string) : json :=
  match o with
  | JNull => o
  | _ => baseUnset o (castPath p o)
  end.

(** [_.includes(collection, name)] for a string [name]: membership in an
    array or in the values of an object, substring of a string, [false] on
    anything else. *)
Definition isStr (name : string) (v : json) : bool :=
  match v with JStr s => String.eqb s name | _ => false end.

Definition includes (collection : json) (name : string) : bool :=
  match collection with
  | JArr xs => existsb (isStr name) xs
  | JObj kvs => existsb (fun kv => isStr name kv.2) kvs
  | JStr s => includesStr name s
  | _ => false
  end.

End Lodash.

(** ** [JSON.stringify(value, null, 2)] *)

Module Json.

Definition dquote : string := String "034"%char EmptyString.
Definition newline : string := String "010"%char EmptyString.
Definition backslash : string := String "092"%char EmptyString.

Definition hexDigit (n : nat) : string :=
  match n with
  | 0 => "0" | 1 => "1" | 2 => "2" | 3 => "3" | 4 => "4" | 5 => "5"
  | 6 => "6" | 7 => "7" | 8 => "8" | 9 => "9" | 10 => "a" | 11 => "b"
  | 12 => "c" | 13 => "d" | 14 => "e" | _ => "f"
  end.

(** The escape of one character inside a JSON string. *)
Definition escapeChar (c : ascii) : string :=
  let n := nat_of_ascii c in
  if Nat.eqb n 34 then backslash +:+ dquote
  else if Nat.eqb n 92 then backslash +:+ backslash
  else if Nat.eqb n 8 then backslash +:+ "b"
  else if Nat.eqb n 9 then backslash +:+ "t"
  else if Nat.eqb n 10 then backslash +:+ "n"
  else if Nat.eqb n 12 then backslash +:+ "f"
  else if Nat.eqb n 13 then backslash +:+ "r"
  else if Nat.ltb n 32 then
    backslash +:+ "u00" +:+ hexDigit (n / 16) +:+ hexDigit (n mod 16)
  else String c EmptyString.

Fixpoint escape (s : string) : string :=
  match s with
  | EmptyString => EmptyString
  | String c rest => escapeChar c +:+ escape rest
  end.

Definition quote (s : string) : string := dquote +:+ escape s +:+ dquote.

(** The serialization at indentation [ind]; one level adds two spaces. *)
Fixpoint serialize (ind : string) (v : json) : string :=
  match v with
  | JNull => "null"
  | JBool true => "true"
  | JBool false => "false"
  | JNum r => r
  | JStr s => quote s
  | JArr [] => "[]"
  | JArr xs =>
      "[" +:+ newline
      +:+ (fix items (l : list json) : string :=
             match l with
             | [] => EmptyString
             | [x] => ind +:+ "  " +:+ serialize (ind +:+ "  ") x
             | x :: rest =>
                 ind +:+ "  " +:+ serialize (ind +:+ "  ") x
                 +:+ "," +:+ newline +:+ items rest
             end) xs
      +:+ newline +:+ ind +:+ "]"
  | JObj [] => "{}"
  | JObj kvs =>
      "{" +:+ newline
      +:+ (fix members (l : list (string * json)) : string :=
             match l with
             | [] => EmptyString
             | [(k, x)] =>
                 ind +:+ "  " +:+ quote k +:+ ": "
                 +:+ serialize (ind +:+ "  ") x
             | (k, x) :: rest =>
                 ind +:+ "  " +:+ quote k +:+ ": "
                 +:+ serialize (ind +:+ "  ") x
                 +:+ "," +:+ newline +:+ members rest
             end) kvs
      +:+ newline +:+ ind +:+ "}"
  end.

Definition stringify (v : json) : string := serialize EmptyString v.

End Json.

(** ** Paths and glob patterns *)

Module Path.

(** [path.join(dir, name)] for a directory that is already normalized and
    not the root (no [.], [..], doubled or trailing separator: what
    [pathJoin] returns for the unit directories) and a relative path that
    is already normal: nothing is left to normalize, and the result is the
    two with a separator between them. *)
Definition join (a b : string) : string := a +:+ "/" +:+ b.

(** The segments of a path: what stands between its separators. *)
Fixpoint splitSlash (acc : string) (s : string) : list string :=
  match s with
  | EmptyString => [acc]
  | String c rest =>
      if Ascii.eqb c "/"%char then acc :: splitSlash EmptyString rest
      else splitSlash (acc +:+ String c EmptyString) rest
  end.

(** Node's [normalizeString]: empty segments and [.] are dropped, [..]
    takes back the segment before it, and is kept at the front of a
    relative path only. [stack] holds the segments kept so far, last
    first. *)
Fixpoint resolveSegments (allowAboveRoot : bool) (stack segs : list string)
  : list string :=
  match segs with
  | [] => rev stack
  | seg :: rest =>
      if String.eqb seg EmptyString || String.eqb seg "." then
        resolveSegments allowAboveRoot stack rest
      else if String.eqb seg ".." then
        match stack with
        | top :: below =>
            if String.eqb top ".." then
              resolveSegments allowAboveRoot (".." :: stack) rest
            else resolveSegments allowAboveRoot below rest
        | [] =>
            if allowAboveRoot then resolveSegments allowAboveRoot [".."] rest
            else resolveSegments allowAboveRoot [] rest
        end
      else resolveSegments allowAboveRoot (seg :: stack) rest
  end.

Definition isAbsolute (p : string) : bool :=
  match p with String c _ => Ascii.eqb c "/"%char | EmptyString => false end.

Fixpoint endsWithSlash (p : string) : bool :=
  match p with
  | EmptyString => false
  | String c EmptyString => Ascii.eqb c "/"%char
  | String _ rest => endsWithSlash rest
  end.

(** [path.normalize(p)] (POSIX). *)
Definition normalize (p : string) : string :=
  match p with
  | EmptyString => "."
  | _ =>
      let body :=
        String.concat "/"
          (resolveSegments (negb (isAbsolute p)) [] (splitSlash EmptyString p)) in
      match body with
      | EmptyString =>
          if isAbsolute p then "/" else if endsWithSlash p then "./" else "."
      | _ =>
          (if isAbsolute p then "/" else EmptyString)
          +:+ body +:+ (if endsWithSlash p then "/" else EmptyString)
      end
  end.

(** [path.join(a, b)] in general: the arguments that are not empty, with a
    separator between them, normalized. *)
Definition pathJoin (a b : string) : string :=
  match a, b with
  | EmptyString, EmptyString => "."
  | EmptyString, _ => normalize b
  | _, EmptyString => normalize a
  | _, _ => normalize (a +:+ "/" +:+ b)
  end.

(** Whether [s] starts with a name, not with a separator. *)
Definition startsName (s : string) : bool :=
  match s with
  | String c _ => negb (Ascii.eqb c "/"%char)
  | EmptyString => false
  end.

(** The text before the last separator that a name follows. *)
Fixpoint beforeName (s : string) : option string :=
  match s with
  | EmptyString => None
  | String c rest =>
      match beforeName rest with
      | Some d => Some (String c d)
      | None =>
          if Ascii.eqb c "/"%char && startsName rest then Some EmptyString
          else None
      end
  end.

(** [path.dirname(p)] (POSIX): the separators that end [p] are passed
    over, and the first character is never taken for the separator
    looked for. *)
Definition dirname (p : string) : string :=
  match p with
  | EmptyString => "."
  | String c tail =>
      match beforeName tail with
      | Some d =>
          if Ascii.eqb c "/"%char && String.eqb d EmptyString then "//"
          else String c d
      | None => if Ascii.eqb c "/"%char then "/" else "."
      end
  end.

(** [path.resolve(base, t)] for an absolute [base]: [t] itself when it is
    absolute, else [t] taken from [base]; normalized, without a separator
    at the end. A relative [base] is left relative. *)
Definition resolve (base t : string) : string :=
  let p := if isAbsolute t then t else base +:+ "/" +:+ t in
  let body :=
    String.concat "/"
      (resolveSegments (negb (isAbsolute p)) [] (splitSlash EmptyString p)) in
  if isAbsolute p then "/" +:+ body
  else match body with EmptyString => "." | _ => body end.

(** [s] without its prefix [pre], when it has it. *)
Fixpoint stripPrefix (pre s : string) : option string :=
  match pre with
  | EmptyString => Some s
  | String c pre' =>
      match s with
      | String d s' => if Ascii.eqb c d then stripPrefix pre' s' else None
      | EmptyString => None
      end
  end.

(** The path [p] written relative to the directory [dir]. *)
Definition under (dir p : string) : option string :=
  stripPrefix (dir +:+ "/") p.

End Path.

Module Glob.

(** A pattern of literal characters and [*], which stands for any run of
    characters other than the separator. The patterns of
    [getPrismaEngines] use nothing else for a platform identifier of the
    mapping or for [undefined]; the braces, brackets and parentheses that
    only the text of an inherited member brings into an exclusion pattern
    are read as themselves. *)
Fixpoint matches (p : string) : string -> bool :=
  match p with
  | EmptyString =>
      fun s => match s with EmptyString => true | String _ _ => false end
  | String c p' =>
      if Ascii.eqb c "*"%char then
        fix star (s : string) : bool :=
          matches p' s
          || match s with
             | String d s' => negb (Ascii.eqb d "/"%char) && star s'
             | EmptyString => false
             end
      else
        fun s =>
          match s with
          | String d s' => Ascii.eqb c d && matches p' s'
          | EmptyString => false
          end
  end.

(** fast-glob reads a pattern that starts with [!] as an exclusion. *)
Definition negated (p : string) : option string :=
  match p with
  | String c rest => if Ascii.eqb c "!"%char then Some rest else None
  | EmptyString => None
  end.

Definition positives (ps : list string) : list string :=
  List.filter (fun p => match negated p with None => true | Some _ => false end) ps.

Definition negatives (ps : list string) : list string :=
  omap negated ps.

(** An entry is selected when some inclusion pattern matches it and no
    exclusion pattern does. *)
Definition selects (ps : list string) (entry : string) : bool :=
  existsb (fun p => matches p entry) (positives ps)
  && negb (existsb (fun p => matches p entry) (negatives ps)).

End Glob.

(** ** The world: file system, narration, spawned commands *)

Inductive node : Type :=
| File (content : string)
| Dir
| Link (target : string).

Inductive event : Type :=
| Log (msg : string)
| Exec (cmd cwd : string)
| WriteFile (path content : string)
| Rm (path : string)
| Symlink (target path : string)
| Cp (src dst : string)
| Mkdir (path : string).

Record world : Type := World {
  fs : gmap string node;
  trace : list event;
}.

Inductive outcome (A : Type) : Type :=
| Returned (a : A) (w : world)
| Thrown (err : string) (w : world).
Arguments Returned {A} a w.
Arguments Thrown {A} err w.

(** A computation of the plugin: it reads and changes the world and either
    returns or throws; what it did before throwing stays done. *)
Definition M (A : Type) : Type := world -> outcome A.

Definition ret {A} (a : A) : M A := fun w => Returned a w.
Definition throw {A} (err : string) : M A := fun w => Thrown err w.
Definition bind {A B} (m : M A) (k : A -> M B) : M B :=
  fun w =>
    match m w with
    | Returned a w' => k a w'
    | Thrown e w' => Thrown e w'
    end.

Notation "'let*' x ':=' m 'in' k" := (bind m (fun x => k))
  (at level 10, x name, m at level 100, k at level 200).
Notation "m '>>' k" := (bind m (fun _ => k))
  (at level 100, k at level 200, right associativity).

Definition emit (e : event) : M unit :=
  fun w => Returned tt (World (fs w) (trace w ++ [e])).

Definition getFs : M (gmap string node) := fun w => Returned (fs w) w.
Definition putFs (f : gmap string node) : M unit :=
  fun w => Returned tt (World f (trace w)).

(** [for (const x of xs) body(x)]. *)
Fixpoint forEach {A} (xs : list A) (body : A -> M unit) : M unit :=
  match xs with
  | [] => ret tt
  | x :: rest => body x >> forEach rest body
  end.

(** [xs.filter(pred)] with a callback that may throw. *)
Fixpoint filterM {A} (pred : A -> M bool) (xs : list A) : M (list A) :=
  match xs with
  | [] => ret []
  | x :: rest =>
      let* keep := pred x in
      let* kept := filterM pred rest in
      ret (if keep then x :: kept else kept)
  end.

(** ** Node's [fs], on paths taken as keys: an entry is looked up at the
    path as it is written, and the directories further up are not looked
    at (the unit directories the bundler made exist and are directories).
    A [Link] is a directory symlink, as [symlinkSync(_, _, 'dir')] makes.
    The one place where the plugin meets a link of its own is the schema
    directory of a unit: [existsSync] follows the links at its path, and
    [cpSync] looks for its destination in the directory that the parent of
    the destination leads to. *)

Module Fs.

Definition readFileSync (p : string) : M string :=
  let* f := getFs in
  match f !! p with
  | Some (File c) => ret c
  | Some Dir | Some (Link _) => throw "EISDIR"
  | None => throw "ENOENT"
  end.

Definition writeFileSync (p content : string) : M unit :=
  let* f := getFs in
  match f !! p with
  | Some Dir | Some (Link _) => throw "EISDIR"
  | Some (File _) | None =>
      emit (WriteFile p content) >> putFs (<[p := File content]> f)
  end.

(** Where a path leads once the links at it are followed, as [stat]
    does. *)
Inductive reach : Type :=
| Reached (p : string) (n : node)
| Dangling (p : string)
| TooManyLinks.

(** The kernel follows no more than 40 links on one lookup. *)
Definition maxLinks : nat := 40.

(** A directory that is not listed is known by an entry below it. *)
Definition holds (f : gmap string node) (p : string) : bool :=
  existsb
    (fun kv => match Path.under p kv.1 with Some _ => true | None => false end)
    (map_to_list f).

(** A link leads to its target, taken from the directory the link is in;
    there stands what is listed, or a directory known by its entries. *)
Fixpoint follow (fuel : nat) (f : gmap string node) (p : string) : reach :=
  match f !! p with
  | None => Dangling p
  | Some (Link t) =>
      match fuel with
      | O => TooManyLinks
      | S fuel' =>
          let q := Path.resolve (Path.dirname p) t in
          match f !! q with
          | None => if holds f q then Reached q Dir else Dangling q
          | Some _ => follow fuel' f q
          end
      end
  | Some n => Reached p n
  end.

(** Whether the lookup of [p] passes at [k]. *)
Fixpoint onWay (fuel : nat) (f : gmap string node) (p k : string) : bool :=
  String.eqb p k
  || match f !! p, fuel with
     | Some (Link t), S fuel' =>
         onWay fuel' f (Path.resolve (Path.dirname p) t) k
     | _, _ => false
     end.

(** [existsSync(path)]: links are followed, and a link that leads nowhere
    does not exist. *)
Definition existsSync (p : string) : M bool :=
  let* f := getFs in
  ret (match follow maxLinks f p with Reached _ _ => true | _ => false end).

Definition mkdirSync (p : string) : M unit :=
  let* f := getFs in
  match f !! p with
  | Some _ => throw "EEXIST"
  | None => emit (Mkdir p) >> putFs (<[p := Dir]> f)
  end.

(** [symlinkSync(target, path, 'dir')]: refuses a path that exists. *)
Definition symlinkSync (target p : string) : M unit :=
  let* f := getFs in
  match f !! p with
  | Some _ => throw "EEXIST"
  | None => emit (Symlink target p) >> putFs (<[p := Link target]> f)
  end.

(** Whether [dst] is [src] or a path below it. *)
Definition within (src dst : string) : bool :=
  String.eqb dst src
  || match Path.under src dst with Some _ => true | None => false end.

(** What [cpSync] refuses before it copies: a destination that is the
    source, a directory over what is none or the reverse, a directory into
    itself. [real] is where the destination was found, and [dest] what
    stands there, if anything. *)
Definition checkPaths (src dst real : string) (n : node) (dest : option node)
  : option string :=
  let isDir (x : node) := match x with Dir => true | _ => false end in
  match dest with
  | Some d =>
      if String.eqb real src then Some "ERR_FS_CP_EINVAL"
      else if isDir n && negb (isDir d) then Some "ERR_FS_CP_DIR_TO_NON_DIR"
      else if negb (isDir n) && isDir d then Some "ERR_FS_CP_NON_DIR_TO_DIR"
      else if isDir n && within src dst then Some "ERR_FS_CP_EINVAL"
      else None
  | None => if isDir n && within src dst then Some "ERR_FS_CP_EINVAL" else None
  end.

(** The copy itself, once the paths are checked: a directory is refused,
    [recursive] not being set; what stands at [real] is unlinked and the
    source put there, unless the way to [real] led over what was
    unlinked. *)
Definition copyNode (src dst : string) (n : node) (real : string)
    (lost : bool) : M unit :=
  match n with
  | Dir => throw "ERR_FS_EISDIR"
  | _ =>
      let* f := getFs in
      if lost then putFs (delete real f) >> throw "ENOENT"
      else emit (Cp src dst) >> putFs (<[real := n]> f)
  end.

(** [cpSync(src, dst, { force: true })]. The source is taken as it is
    written and not followed; the destination is looked for in the
    directory its parent leads to: a parent that is a file refuses it, a
    parent that is missing is made. A file is copied with its content, a
    link as a link (the rewriting of a relative target is left out). *)
Definition cpSync (src dst : string) : M unit :=
  let* f := getFs in
  match f !! src with
  | None => throw "ENOENT"
  | Some n =>
      let parent := Path.dirname dst in
      match Path.under parent dst with
      | None =>
          match checkPaths src dst dst n (f !! dst) with
          | Some err => throw err
          | None => copyNode src dst n dst false
          end
      | Some name =>
          match f !! parent with
          | None =>
              match checkPaths src dst dst n None with
              | Some err => throw err
              | None =>
                  putFs (<[parent := Dir]> f) >> copyNode src dst n dst false
              end
          | Some _ =>
              match follow maxLinks f parent with
              | Reached q Dir =>
                  let real := Path.join q name in
                  match checkPaths src dst real n (f !! real) with
                  | Some err => throw err
                  | None =>
                      copyNode src dst n real (onWay maxLinks f parent real)
                  end
              | Reached _ _ => throw "ENOTDIR"
              | TooManyLinks => throw "ELOOP"
              | Dangling _ =>
                  match checkPaths src dst dst n None with
                  | Some err => throw err
                  | None => throw "ENOENT"
                  end
              end
          end
      end
  end.

Definition outside (dir : string) (p : string) : bool :=
  negb (String.eqb p dir)
  && match Path.under dir p with None => true | Some _ => false end.

(** [rmSync(path, { recursive, force: true })]: a missing path is no
    error; a directory goes with all that is below it, and only when
    [recursive] is set. *)
Definition rmSync (p : string) (recursive : bool) : M unit :=
  let* f := getFs in
  emit (Rm p) >>
  match f !! p with
  | None => ret tt
  | Some Dir =>
      if recursive then putFs (filter (fun kv => outside p kv.1 = true) f)
      else throw "ERR_FS_EISDIR"
  | Some _ => putFs (delete p f)
  end.

(** fast-glob's [globSync(patterns, { cwd })]: the files below [cwd],
    written relative to it, that the patterns select. *)
Definition globSync (patterns : list string) (cwd : string) : M (list string) :=
  let* f := getFs in
  ret (omap (fun kv =>
               match kv.2 with
               | File _ =>
                   match Path.under cwd kv.1 with
                   | Some rel =>
                       if Glob.selects patterns rel then Some rel else None
                   | None => None
                   end
               | _ => None
               end) (map_to_list f)).

End Fs.

(** ** The plugin *)

Inductive scriptAction : Type := ScriptAdd | ScriptRemove.
Inductive schemaAction : Type := SchemaCopy | SchemaSymlink.

(** How a spawned command ends: with success or not, and the file system
    it leaves (a command that fails may have changed files before). *)
Inductive exit : Type :=
| Exited (success : bool) (left : gmap string node).

Section Plugin.

(** [this.serverless]: the host object, with [service] and [config]. *)
Variable serverless : json.

(** [childProcess.execSync(cmd, { cwd })]: whether the command exited
    with success, and what it left of the file system either way. *)
Variable execSync : string -> string -> gmap string node -> exit.

(** [JSON.parse]; [None] is a [SyntaxError]. *)
Variable JSON_parse : string -> option json.

(** [path.relative(from, to)]. *)
Variable relative : string -> string -> string.

Definition log (msg : string) : M unit := emit (Log msg).

Definition runCommand (command : json) (args : list json) (cwd : string)
  : M unit :=
  let strArgs := JS.join " " args in
  let cmd := JS.join " " [command; JStr strArgs] in
  emit (Exec cmd cwd) >>
  let* f := getFs in
  match execSync cmd cwd f with
  | Exited true f' => putFs f'
  | Exited false f' => putFs f' >> throw "Command failed"
  end.

Definition getArchitectures : list (string * string) :=
  [("arm64", "linux-arm64"); ("x86_64", "rhel")].

Definition getArchitecture : json :=
  Lodash.getOr (Some serverless) "service.provider.architecture" (JStr "x86_64").

Definition getPackageManager : json :=
  Lodash.getOr (Some serverless) "service.custom.webpack.packager" (JStr "npm").

Definition getPrismaVersion : json :=
  Lodash.getOr (Some serverless) "service.custom.prisma.version" (JStr EmptyString).

Definition getInstallDeps : json :=
  Lodash.getOr (Some serverless) "service.custom.prisma.installDeps" (JBool true).

Definition getUseSymlink : json :=
  Lodash.getOr (Some serverless) "service.custom.prisma.useSymLinkForPrisma"
    (JBool false).

(** The own property [key] of a table; [None] when it has none. *)
Fixpoint lookupArchitecture (table : list (string * string)) (key : string)
  : option string :=
  match table with
  | [] => None
  | (k, v) :: rest =>
      if String.eqb key k then Some v else lookupArchitecture rest key
  end.

(** The text a template literal gives for a string or for [undefined]. *)
Definition interpolate (v : option string) : string :=
  match v with Some s => s | None => "undefined" end.

(** The text V8 gives for a builtin function. *)
Definition nativeFunction (name : string) : string :=
  "function " +:+ name +:+ "() { [native code] }".

(** The members an object literal inherits from [Object.prototype], each
    with the text a template literal gives for it. *)
Definition objectPrototypeMembers : list (string * string) :=
  [ ("constructor", nativeFunction "Object");
    ("__defineGetter__", nativeFunction "__defineGetter__");
    ("__defineSetter__", nativeFunction "__defineSetter__");
    ("hasOwnProperty", nativeFunction "hasOwnProperty");
    ("__lookupGetter__", nativeFunction "__lookupGetter__");
    ("__lookupSetter__", nativeFunction "__lookupSetter__");
    ("isPrototypeOf", nativeFunction "isPrototypeOf");
    ("propertyIsEnumerable", nativeFunction "propertyIsEnumerable");
    ("toString", nativeFunction "toString");
    ("valueOf", nativeFunction "valueOf");
    ("__proto__", "[object Object]");
    ("toLocaleString", nativeFunction "toLocaleString") ].

(** The text of [this.getArchitectures()[key]] in a template literal: the
    mapped identifier for a key of the mapping, the text of the member for
    a name inherited from [Object.prototype], [None] ([undefined])
    otherwise. *)
Definition architectureMember (key : string) : option string :=
  match lookupArchitecture getArchitectures key with
  | Some platform => Some platform
  | None => lookupArchitecture objectPrototypeMembers key
  end.

Definition getPrismaEngines : list string :=
  let prefix :=
    interpolate (architectureMember (JS.toString getArchitecture)) in
  [ "node_modules/.prisma/client/libquery_engine*";
    "!node_modules/.prisma/client/libquery_engine-" +:+ prefix +:+ "*";
    "node_modules/prisma/libquery_engine*";
    "!node_modules/prisma/libquery_engine-" +:+ prefix +:+ "*";
    "node_modules/@prisma/engines/libquery_engine*";
    "!node_modules/@prisma/engines/libquery_engine-" +:+ prefix +:+ "*";
    "node_modules/@prisma/engines/migration-engine*";
    "!node_modules/@prisma/engines/migration-engine-" +:+ prefix +:+ "*";
    "node_modules/@prisma/engines/prisma-fmt*";
    "!node_modules/@prisma/engines/prisma-fmt-" +:+ prefix +:+ "*";
    "node_modules/@prisma/engines/introspection-engine*";
    "!node_modules/@prisma/engines/introspection-engine-" +:+ prefix +:+ "*";
    "node_modules/@prisma/engines/schema-engine*";
    "!node_modules/@prisma/engines/schema-engine-" +:+ prefix +:+ "*" ].

(** The manifest tree after the script entry is set or unset. *)
Definition updateScripts (action : scriptAction) (parsed : json) : json :=
  match action with
  | ScriptAdd =>
      Lodash.set parsed "scripts.prisma:generate" (JStr "prisma generate")
  | ScriptRemove => Lodash.unset parsed "scripts.prisma:generate"
  end.

Definition managePackageScripts (action : scriptAction) (cwd : string)
  : M unit :=
  let packageJsonPath := Path.join cwd "package.json" in
  let* contents := Fs.readFileSync packageJsonPath in
  match JSON_parse contents with
  | None => throw "SyntaxError"
  | Some parsed =>
      Fs.writeFileSync packageJsonPath
        (Json.stringify (updateScripts action parsed))
  end.

Definition installPrismaPackage (cwd : string) : M unit :=
  log "Installing prisma devDependencies..." >>
  managePackageScripts ScriptAdd cwd >>
  let packageName :=
    JStr "prisma"
      :: (if truthy getPrismaVersion then [getPrismaVersion] else []) in
  let args := [JStr "install"; JStr "-D"; JStr (JS.join "@" packageName)] in
  runCommand getPackageManager args cwd.

Definition deletePrismaDirectories (cwd : string) : M unit :=
  let modules := [".bin/prisma"; "prisma"] in
  forEach modules (fun module =>
    let modulePath := Path.join (Path.join cwd "node_modules") module in
    Fs.rmSync modulePath true).

Definition removePrismaPackage (cwd : string) : M unit :=
  log "Removing prisma devDependencies..." >>
  managePackageScripts ScriptRemove cwd >>
  let args := [JStr "remove"; JStr "prisma"] in
  runCommand getPackageManager args cwd >>
  deletePrismaDirectories cwd.

Definition managePrismaSchema (action : schemaAction) (cwd prismaDir : string)
  : M unit :=
  let targetDir := Path.join cwd "prisma" in
  let relativePath := relative cwd prismaDir in
  match action with
  | SchemaSymlink =>
      log "Creating symlink for Prisma schema..." >>
      Fs.symlinkSync relativePath targetDir
  | SchemaCopy =>
      log "Copying Prisma schema..." >>
      let sourceSchemaPath := Path.join prismaDir "schema.prisma" in
      let targetSchemaPath := Path.join targetDir "schema.prisma" in
      let* present := Fs.existsSync targetDir in
      (if present then ret tt else Fs.mkdirSync targetDir) >>
      Fs.cpSync sourceSchemaPath targetSchemaPath
  end.

(** [this.serverless.config.servicePath], read before [get] is called. *)
Definition servicePath : M value :=
  match getProp serverless "config" with
  | None | Some JNull => throw "TypeError"
  | Some c => ret (getProp c "servicePath")
  end.

Definition getPrismaPath : M value :=
  let* d := servicePath in
  ret (match Lodash.get (Some serverless) "service.custom.prisma.prismaPath" with
       | Some v => Some v
       | None => d
       end).

Definition generatePrismaClient (cwd : string) : M unit :=
  log "Generating Prisma client..." >>
  runCommand getPackageManager [JStr "run"; JStr "prisma:generate"] cwd.

Definition getWebpackOutputPath : M value :=
  let* d := servicePath in
  ret (match Lodash.get (Some serverless) "service.custom.webpack.webpackOutputPath" with
       | Some v => Some v
       | None => d
       end).

Definition deleteUnusedEngines (cwd : string) : M unit :=
  let* engines := Fs.globSync getPrismaEngines cwd in
  match engines with
  | [] => ret tt
  | _ =>
      log "Removing unused Prisma engines:" >>
      forEach engines (fun engine =>
        let enginePath := Path.join cwd engine in
        log ("  - " +:+ engine) >>
        Fs.rmSync enginePath false)
  end.

(** [this.serverless.service.functions], the host's registry. *)
Definition registry : list (string * json) :=
  match Lodash.walk (Some serverless) ["service"; "functions"] with
  | Some (JObj kvs) => kvs
  | _ => []
  end.

(** [service.getAllFunctions()]: the registered names, in the registry's
    order. *)
Definition getAllFunctions : list string := map fst registry.

(** [service.getFunction(name)]: throws on a name that is not registered. *)
Definition getFunction (name : string) : M json :=
  match assoc name registry with
  | Some f => ret f
  | None => throw "ServerlessError"
  end.

Definition getIgnoredFunctions : json :=
  Lodash.getOr (Some serverless) "service.custom.prisma.ignoreFunctions" (JArr []).

Definition getProviderRuntime : value :=
  Lodash.get (Some serverless) "service.provider.runtime".

(** [func.image] is read on the definition: [null] has no properties. *)
Definition isFunctionImage (func : json) : M bool :=
  match func with
  | JNull => throw "TypeError"
  | _ => ret (match getProp func "image" with Some _ => true | None => false end)
  end.

Definition isFunctionIgnored (funcName : string) : bool :=
  let ignoredFunctions := getIgnoredFunctions in
  Lodash.includes ignoredFunctions funcName.

(** [!!v.match(/node/)]: only a string has [match]. *)
Definition matchNode (v : json) : M bool :=
  match v with
  | JStr s => ret (includesStr "node" s)
  | _ => throw "TypeError"
  end.

Definition isRuntimeNode (func : json) : M bool :=
  let funcRuntime := Lodash.getOr (Some func) "handler.runtime" (JStr EmptyString) in
  let providerRuntime :=
    match getProviderRuntime with
    | Some r => if truthy r then r else JStr "node"
    | None => JStr "node"
    end in
  let* a := matchNode funcRuntime in
  if a then ret true else matchNode providerRuntime.

(** The callback of [functions.filter] in [getNodeFunctions]. *)
Definition keepFunction (funcName : string) : M bool :=
  let* func := getFunction funcName in
  let* image := isFunctionImage func in
  if image then ret false else
  let* node := isRuntimeNode func in
  if negb node then ret false else
  if isFunctionIgnored funcName then ret false else
  ret true.

Definition getNodeFunctions : M (list string) :=
  let functions := getAllFunctions in
  filterM keepFunction functions.

Definition getFunctionNames : M (list string) :=
  let packageIndividually :=
    Lodash.getOr (Some serverless) "service.package.individually" (JBool false) in
  if truthy packageIndividually then getNodeFunctions else ret ["service"].

(** [path.join(a, b)] on a value: anything but a string is refused. *)
Definition joinValue (a : value) (b : string) : M string :=
  match a with
  | Some (JStr s) => ret (Path.pathJoin s b)
  | _ => throw "ERR_INVALID_ARG_TYPE"
  end.

(** The body of the loop of [onBeforeWebpackPackage], for one unit. *)
Definition processUnit (schema : schemaAction) (webpackDir prismaDir : string)
    (funcName : string) : M unit :=
  let cwd := Path.pathJoin webpackDir funcName in
  (if truthy getInstallDeps then installPrismaPackage cwd else ret tt) >>
  managePrismaSchema schema cwd prismaDir >>
  generatePrismaClient cwd >>
  deleteUnusedEngines cwd >>
  (if truthy getInstallDeps then removePrismaPackage cwd else ret tt).

Definition onBeforeWebpackPackage : M unit :=
  let* prismaRelativePath := getPrismaPath in
  let* prismaDir := joinValue prismaRelativePath "prisma" in
  let* outputPath := getWebpackOutputPath in
  let* webpackDir := joinValue outputPath ".webpack" in
  let* functions := getFunctionNames in
  let schema := if truthy getUseSymlink then SchemaSymlink else SchemaCopy in
  forEach functions (processUnit schema webpackDir prismaDir).

End Plugin.

(** ** Vocabulary of the statements *)

Definition worldOf {A} (o : outcome A) : world :=
  match o with Returned _ w => w | Thrown _ w => w end.

(** No [*] in a pattern: it is its own only match. *)
Fixpoint literal (s : string) : bool :=
  match s with
  | EmptyString => true
  | String c rest => negb (Ascii.eqb c "*"%char) && literal rest
  end.

(** No separator: what [*] can stand for. *)
Fixpoint noSlash (s : string) : bool :=
  match s with
  | EmptyString => true
  | String c rest => negb (Ascii.eqb c "/"%char) && noSlash rest
  end.

(** A name of a path: not empty, without separator, and neither [.] nor
    [..]. *)
Definition plainName (s : string) : bool :=
  negb (String.eqb s EmptyString) && noSlash s
  && negb (String.eqb s ".") && negb (String.eqb s "..").

(** [s] is [pre] followed by a run without separator. *)
Definition startsIn (pre s : string) : bool :=
  match Path.stripPrefix pre s with
  | Some rest => noSlash rest
  | None => false
  end.

(** The engine names of [getPrismaEngines] under their install locations. *)
Definition engineStems : list string :=
  [ "node_modules/.prisma/client/libquery_engine";
    "node_modules/prisma/libquery_engine";
    "node_modules/@prisma/engines/libquery_engine";
    "node_modules/@prisma/engines/migration-engine";
    "node_modules/@prisma/engines/prisma-fmt";
    "node_modules/@prisma/engines/introspection-engine";
    "node_modules/@prisma/engines/schema-engine" ].

(** A file an inclusion pattern matches. *)
Definition engineFile (rel : string) : bool :=
  existsb (fun stem => startsIn stem rel) engineStems.

(** A file an exclusion pattern keeps: [<stem>-<platform>...]. *)
Definition targetEngine (platform rel : string) : bool :=
  existsb (fun stem => startsIn (stem +:+ "-" +:+ platform) rel) engineStems.

(** The platform identifier the mapping has for the configured
    architecture. *)
Definition resolvedPlatform (serverless : json) : option string :=
  lookupArchitecture getArchitectures (JS.toString (getArchitecture serverless)).

(** The text [getPrismaEngines] puts into the exclusion patterns. *)
Definition platformText (serverless : json) : string :=
  interpolate (architectureMember (JS.toString (getArchitecture serverless))).

(** The files [deleteUnusedEngines] removes from a unit directory. *)
Definition pruned (serverless : json) (cwd : string) (f : gmap string node)
    (p : string) : bool :=
  match f !! p, Path.under cwd p with
  | Some (File _), Some rel => Glob.selects (getPrismaEngines serverless) rel
  | _, _ => false
  end.

(** What [deleteUnusedEngines] narrates and removes for the engines found. *)
Definition pruneEvents (cwd : string) (engines : list string) : list event :=
  match engines with
  | [] => []
  | _ =>
      Log "Removing unused Prisma engines:"
        :: flat_map (fun e => [Log ("  - " +:+ e); Rm (Path.join cwd e)]) engines
  end.

(** The file system once the listed entries of a unit are removed. *)
Definition removeAll (cwd : string) (engines : list string)
    (f : gmap string node) : gmap string node :=
  foldl (fun g e => delete (Path.join cwd e) g) f engines.

(** The entries [globSync] lists for the engine patterns. *)
Definition foundEngines (serverless : json) (cwd : string)
    (f : gmap string node) : list string :=
  omap (fun kv =>
          match kv.2 with
          | File _ =>
              match Path.under cwd kv.1 with
              | Some rel =>
                  if Glob.selects (getPrismaEngines serverless) rel
                  then Some rel else None
              | None => None
              end
          | _ => None
          end) (map_to_list f).

(** The files [deleteUnusedEngines] removes when the exclusion patterns are
    built for [platform]: engine files that are not [<stem>-<platform>...]. *)
Definition prunedFor (platform cwd : string) (f : gmap string node)
    (p : string) : bool :=
  match f !! p, Path.under cwd p with
  | Some (File _), Some rel =>
      engineFile rel && negb (targetEngine platform rel)
  | _, _ => false
  end.

(** ** Sample inputs *)

(** A host object with the given [provider], [custom], [functions] and
    [package] sections, and [/srv/app] as service path. *)
Definition hostOf (provider custom functions package : list (string * json))
  : json :=
  JObj [ ("service",
          JObj [ ("provider", JObj provider); ("custom", JObj custom);
                 ("functions", JObj functions); ("package", JObj package) ]);
         ("config", JObj [("servicePath", JStr "/srv/app")]) ].

(** No setting at all: every accessor answers its default. *)
Definition defaultHost : json := hostOf [] [] [] [].

(** An architecture outside the mapping. *)
Definition armv7Host : json :=
  hostOf [("architecture", JStr "armv7")] [] [] [].

Definition unitDir : string := "/srv/app/.webpack/service".

(** A unit with the query engine generated for two platforms. *)
Definition twoEngines : world :=
  World
    (list_to_map
       [ (Path.join unitDir
            "node_modules/.prisma/client/libquery_engine-rhel-openssl-3.0.x.so.node",
          File "rhel");
         (Path.join unitDir
            "node_modules/.prisma/client/libquery_engine-debian-openssl-3.0.x.so.node",
          File "debian") ])
    [].

(** A unit with an engine file that names the platform after another word. *)
Definition renamedEngine : world :=
  World
    (list_to_map
       [ (Path.join unitDir
            "node_modules/prisma/libquery_engine-backup-rhel-openssl-3.0.x.so.node",
          File "rhel") ])
    [].

(** The entries of an object other than the one named [k], in order. *)
Definition others (k : string) (kvs : list (string * json))
  : list (string * json) :=
  List.filter (fun kv => negb (String.eqb k kv.1)) kvs.

(** The scripts table of a manifest before the update: the one it has, or
    the empty one [set] starts from. *)
Definition scriptsOf (top : list (string * json)) : list (string * json) :=
  match assoc "scripts" top with
  | Some (JObj scripts) => scripts
  | _ => []
  end.

(** The [scripts] entry is absent or an object with named members. *)
Definition scriptsWellFormed (top : list (string * json)) : Prop :=
  assoc "scripts" top = None \/ exists scripts, assoc "scripts" top = Some (JObj scripts).

(** The [scripts] entry is absent, [null] or another primitive. *)
Definition scriptsMissing (top : list (string * json)) : Prop :=
  match assoc "scripts" top with
  | None => True
  | Some v => isObject v = false
  end.

Definition manifestPath (cwd : string) : string := Path.join cwd "package.json".

(** A stand-in for [JSON.parse] that reads the listed documents as
    [JSON.stringify] writes them, and nothing else. *)
Definition parseOf (docs : list json) (text : string) : option json :=
  List.find (fun v => String.eqb text (Json.stringify v)) docs.

(** A command runner under which every command succeeds and changes
    nothing. *)
Definition quietExec (cmd cwd : string) (f : gmap string node) : exit :=
  Exited true f.

(** A world whose only file is the manifest of [unitDir], holding [v]. *)
Definition manifestWorld (v : json) : world :=
  World {[ manifestPath unitDir := File (Json.stringify v) ]} [].

Definition emptyScripts : json := JObj [("scripts", JObj [])].

(** The data-proxy option switched on. *)
Definition dataProxyHost : json :=
  hostOf [] [("prisma", JObj [("dataProxy", JBool true)])] [] [].


(** A manifest without scripts and with such a key. *)
Definition dottedNoScripts : json :=
  JObj [ ("name", JStr "app"); ("scripts.prisma:generate", JStr "keep") ].


Definition noScriptsManifest : json :=
  JObj [ ("name", JStr "app"); ("version", JStr "1.0.0") ].

(** The command line [runCommand] runs. *)
Definition commandLine (command : json) (args : list json) : string :=
  JS.join " " [command; JStr (JS.join " " args)].

(** A version pin, and a packager, in the service descriptor. *)
Definition pinnedHost : json :=
  hostOf [] [ ("prisma", JObj [("version", JStr "5.0.0")]);
              ("webpack", JObj [("packager", JStr "yarn")]) ] [] [].

(** The script entry [managePackageScripts] sets. *)
Definition generateEntry : string * json :=
  ("prisma:generate", JStr "prisma generate").

(** The manifest has no script named [prisma:generate]. *)
Definition lacksScript (top : list (string * json)) : Prop :=
  Lodash.walk (Some (JObj top)) ["scripts"; "prisma:generate"] = None.


(** The registry of the test suite's selector case: three functions
    without a runtime ([fn3] on the ignore list), one with a Python runtime
    and one built from an image; the provider names no runtime. *)
Definition mixedHost : json :=
  hostOf []
    [ ("webpack", JObj []);
      ("prisma",
       JObj [ ("ignoredFunctions", JArr [JStr "fn2"]);
              ("ignoreFunctions", JArr [JStr "fn3"]) ]) ]
    [ ("fn1", JObj []);
      ("fn2", JObj []);
      ("fn3", JObj []);
      ("fn4", JObj [("runtime", JStr "python3.9")]);
      ("fn5", JObj [("image", JStr "dummy")]) ]
    [("individually", JBool true)].

Definition emptyWorld : world := World ∅ [].

(** A computation that leaves the world as it found it, returning or not. *)
Definition readOnly {A} (m : M A) : Prop := forall w, worldOf (m w) = w.

(** A stand-in for [path.relative] from a unit directory of [/srv/app] to
    a directory of the service root. *)
Definition twoUp (from to : string) : string := "../../prisma".

Definition schemaDir : string := "/srv/app/prisma".

(** A service root with its schema, and the unit of [unitDir] not yet
    provided with one. *)
Definition schemaWorld : world :=
  World {[ Path.join schemaDir "schema.prisma" := File "datasource db {}" ]} [].

(** ** The steps of one unit, as events *)





(** Schema materialization: a link, or a copy after the directory is made
    when it was missing ([made] is that [Mkdir], or nothing). *)
Definition schemaEvents (relative : string -> string -> string)
    (action : schemaAction) (cwd prismaDir : string) (made : list event)
  : list event :=
  match action with
  | SchemaSymlink =>
      [ Log "Creating symlink for Prisma schema...";
        Symlink (relative cwd prismaDir) (Path.join cwd "prisma") ]
  | SchemaCopy =>
      Log "Copying Prisma schema..."
        :: made
        ++ [ Cp (Path.join prismaDir "schema.prisma")
               (Path.join (Path.join cwd "prisma") "schema.prisma") ]
  end.





(** A service packaged as one unit: its manifest in the unit directory and
    its schema under the service root. *)
Definition serviceWorld : world :=
  World
    (<[manifestPath unitDir := File (Json.stringify emptyScripts)]>
       (fs schemaWorld))
    [].

(** The manifests the run reads: before and after the script is added. *)
Definition manifests : list json :=
  [emptyScripts; updateScripts ScriptAdd emptyScripts].

(** ** Vocabulary of the further properties *)

(** The runtime [isRuntimeNode] tests for the provider: the configured one,
    or [node] when it is absent or falsy. *)
Definition providerRuntimeOf (serverless : json) : json :=
  match getProviderRuntime serverless with
  | Some r => if truthy r then r else JStr "node"
  | None => JStr "node"
  end.

(** A function definition as a service descriptor gives it: an object
    whose handler, when it has one, is no object, and with no key spelled
    [handler.runtime]. *)
Definition plainDefinition (func : json) : Prop :=
  exists fields,
    func = JObj fields
    /\ assoc "handler.runtime" fields = None
    /\ forall hs, assoc "handler" fields <> Some (JObj hs).

(** The registered definition of [name] has an [image] property. *)
Definition hasImage (serverless : json) (name : string) : bool :=
  match assoc name (registry serverless) with
  | Some func => hasProp func "image"
  | None => false
  end.

(** A registry with a function left empty in the descriptor. *)
Definition nullDefinitionHost : json :=
  hostOf [] []
    [ ("fn1", JObj [("handler", JStr "src/fn1.main")]); ("fn2", JNull) ]
    [("individually", JBool true)].

(** A provider with a Python runtime, and functions that name their own. *)
Definition pythonProviderHost : json :=
  hostOf [("runtime", JStr "python3.9")] []
    [ ("api", JObj [("handler", JStr "src/api.main"); ("runtime", JStr "nodejs18.x")]);
      ("job", JObj [("handler", JStr "src/job.main")]) ]
    [("individually", JBool true)].


(** The two leftovers of the tool in a unit. *)
Definition shimPath (cwd : string) : string :=
  Path.join (Path.join cwd "node_modules") ".bin/prisma".

Definition toolPath (cwd : string) : string :=
  Path.join (Path.join cwd "node_modules") "prisma".



(** ** The steps of one unit, as changes of the world *)








(** Two functions packaged one by one, a third one ignored. *)
Definition twoUnitsHost : json :=
  hostOf [] [("prisma", JObj [("ignoreFunctions", JArr [JStr "cron"])])]
    [ ("api", JObj [("handler", JStr "src/api.main")]);
      ("cron", JObj [("handler", JStr "src/cron.main")]);
      ("worker", JObj [("handler", JStr "src/worker.main")]) ]
    [("individually", JBool true)].

(** The service root with its schema, and the manifests of the three
    units. *)
Definition unitsWorld : world :=
  World
    (list_to_map
       [ (Path.join schemaDir "schema.prisma", File "datasource db {}");
         (manifestPath "/srv/app/.webpack/api", File (Json.stringify emptyScripts));
         (manifestPath "/srv/app/.webpack/cron", File (Json.stringify emptyScripts));
         (manifestPath "/srv/app/.webpack/worker",
          File (Json.stringify emptyScripts)) ])
    [].

(** A command runner under which every command succeeds, and the
    generation script leaves the query engine of two platforms in the
    unit. *)
Definition generatingExec (cmd cwd : string) (f : gmap string node) : exit :=
  if String.eqb cmd "npm run prisma:generate" then
    Exited true
      (<[Path.join cwd
           "node_modules/.prisma/client/libquery_engine-rhel-openssl-3.0.x.so.node"
         := File "rhel"]>
         (<[Path.join cwd
              "node_modules/.prisma/client/libquery_engine-debian-openssl-3.0.x.so.node"
            := File "debian"]> f))
  else Exited true f.

(** The commands run and the changes made to the file tree, in the order
    of the run: the events without the narration and the manifest
    rewrites. *)
Definition actionsOf (t : list event) : list event :=
  List.filter
    (fun e => match e with Log _ | WriteFile _ _ => false | _ => true end) t.

(** ** Units in which something stands at the schema path *)

(** A regular file where the schema directory of the unit is to be. *)
Definition fileAtSchemaPath : world :=
  World (<[Path.join unitDir "prisma" := File "stray"]> (fs schemaWorld)) [].

(** A link there that leads to nothing. *)
Definition danglingSchemaLink : world :=
  World (<[Path.join unitDir "prisma" := Link "../gone"]> (fs schemaWorld)) [].

(** A link there that leads to a directory shared between units. *)
Definition sharedSchemaLink : world :=
  World
    (<[Path.join unitDir "prisma" := Link "/srv/shared"]>
       (<["/srv/shared" := Dir]> (fs schemaWorld)))
    [].

#[local] Arguments String.append !s1 s2 : simpl nomatch.
#[local] Arguments Fs.maxLinks : simpl never.

(** ** The cases of the test suite the embedding runs *)

Example runCommand_joins_with_spaces :
  commandLine (JStr "npm") [JStr "install"] = "npm install".
Proof. reflexivity. Qed.

Example getArchitecture_default : getArchitecture defaultHost = JStr "x86_64".
Proof. reflexivity. Qed.

Example getPackageManager_custom : getPackageManager pinnedHost = JStr "yarn".
Proof. reflexivity. Qed.

Example getFunctionNames_service :
  getFunctionNames defaultHost emptyWorld = Returned ["service"] emptyWorld.
Proof. reflexivity. Qed.

Example stringify_empty_scripts :
  Json.stringify emptyScripts
  = "{" +:+ Json.newline
    +:+ "  " +:+ Json.quote "scripts" +:+ ": {}" +:+ Json.newline
    +:+ "}".
Proof. reflexivity. Qed.

Example stringify_added_script :
  Json.stringify (updateScripts ScriptAdd emptyScripts)
  = "{" +:+ Json.newline
    +:+ "  " +:+ Json.quote "scripts" +:+ ": {" +:+ Json.newline
    +:+ "    " +:+ Json.quote "prisma:generate" +:+ ": "
    +:+ Json.quote "prisma generate" +:+ Json.newline
    +:+ "  }" +:+ Json.newline
    +:+ "}".
Proof. reflexivity. Qed.

Example updateScripts_removes_script :
  updateScripts ScriptRemove (updateScripts ScriptAdd emptyScripts)
  = emptyScripts.
Proof. reflexivity. Qed.

(** ** Strings and patterns *)

Lemma append_assoc (a b c : string) : (a +:+ b) +:+ c = a +:+ (b +:+ c).
Proof. induction a as [|x a IH]; simpl; [reflexivity | by rewrite IH]. Qed.

Lemma stripPrefix_app (a b s : string) :
  Path.stripPrefix (a +:+ b) s
  = match Path.stripPrefix a s with
    | Some r => Path.stripPrefix b r
    | None => None
    end.
Proof.
  revert s; induction a as [|x a IH]; intros s; simpl; [reflexivity|].
  destruct s as [|d s]; [reflexivity|].
  destruct (Ascii.eqb x d); [apply IH | reflexivity].
Qed.

Lemma stripPrefix_Some (pre s r : string) :
  Path.stripPrefix pre s = Some r -> s = pre +:+ r.
Proof.
  revert s; induction pre as [|x pre IH]; intros s; simpl.
  - by intros [= ->].
  - destruct s as [|d s]; [done|].
    destruct (Ascii.eqb_spec x d) as [->|]; [|done].
    intros H. by rewrite (IH _ H).
Qed.

Lemma stripPrefix_append (pre r : string) :
  Path.stripPrefix pre (pre +:+ r) = Some r.
Proof.
  induction pre as [|x pre IH]; simpl; [reflexivity|].
  by rewrite Ascii.eqb_refl.
Qed.

Lemma under_join (cwd p rel : string) :
  Path.under cwd p = Some rel -> Path.join cwd rel = p.
Proof.
  unfold Path.under, Path.join. intros H.
  apply stripPrefix_Some in H. subst p. symmetry. apply append_assoc.
Qed.

Lemma join_under (cwd rel : string) :
  Path.under cwd (Path.join cwd rel) = Some rel.
Proof.
  unfold Path.under, Path.join.
  rewrite <- append_assoc. apply stripPrefix_append.
Qed.

(** *** [path.join] on paths that are normal *)

Lemma append_nil_r (a : string) : a +:+ EmptyString = a.
Proof. induction a as [|x a IH]; simpl; [done | by rewrite IH]. Qed.

Lemma splitSlash_name (acc s rest : string) :
  noSlash s = true ->
  Path.splitSlash acc (s +:+ rest) = Path.splitSlash (acc +:+ s) rest.
Proof.
  revert acc. induction s as [|c s IH]; intros acc Hs.
  - by rewrite append_nil_r.
  - simpl in Hs. apply andb_prop in Hs as [Hc Hs].
    apply negb_true_iff in Hc.
    change (String c s +:+ rest) with (String c (s +:+ rest)).
    cbn [Path.splitSlash]. rewrite Hc, IH by done.
    by rewrite append_assoc.
Qed.

Lemma splitSlash_concat (acc : string) (segs : list string) :
  forallb noSlash segs = true -> segs <> [] ->
  Path.splitSlash acc (String.concat "/" segs)
  = match segs with
    | s :: rest => (acc +:+ s) :: rest
    | [] => [acc]
    end.
Proof.
  revert acc. induction segs as [|s segs IH]; intros acc Hsegs Hne; [done|].
  cbn [forallb] in Hsegs. apply andb_prop in Hsegs as [Hs Hsegs].
  destruct segs as [|s' segs].
  - cbn [String.concat]. rewrite <- (append_nil_r s) at 1.
    by rewrite splitSlash_name.
  - change (String.concat "/" (s :: s' :: segs))
      with (s +:+ String "/" (String.concat "/" (s' :: segs))).
    rewrite splitSlash_name by done.
    cbn [Path.splitSlash]. try rewrite Ascii.eqb_refl.
    rewrite IH by done. done.
Qed.

Lemma plainName_kept (s : string) :
  plainName s = true ->
  String.eqb s EmptyString || String.eqb s "." = false
  /\ String.eqb s ".." = false /\ noSlash s = true.
Proof.
  unfold plainName. intros H.
  apply andb_prop in H as [H Hdd]. apply andb_prop in H as [H Hd].
  apply andb_prop in H as [He Hs].
  apply negb_true_iff in Hdd, Hd, He. by rewrite He, Hd.
Qed.

Lemma resolveSegments_plain (above : bool) (stack segs : list string) :
  forallb plainName segs = true ->
  Path.resolveSegments above stack segs = (rev stack ++ segs)%list.
Proof.
  revert stack. induction segs as [|s segs IH]; intros stack Hsegs.
  - simpl. by rewrite app_nil_r.
  - cbn [forallb] in Hsegs. apply andb_prop in Hsegs as [Hs Hsegs].
    apply plainName_kept in Hs as (H1 & H2 & _).
    cbn [Path.resolveSegments]. rewrite H1, H2, IH by done.
    simpl. by rewrite <- app_assoc.
Qed.

Lemma endsWithSlash_app (a b : string) :
  b <> EmptyString -> Path.endsWithSlash (a +:+ b) = Path.endsWithSlash b.
Proof.
  intros Hb. induction a as [|c a IH]; [done|].
  change (String c a +:+ b) with (String c (a +:+ b)).
  cbn [Path.endsWithSlash]. destruct (a +:+ b) eqn:Hab; [|done].
  destruct a; [simpl in Hab; by subst | discriminate].
Qed.

Lemma endsWithSlash_name (s : string) :
  noSlash s = true -> Path.endsWithSlash s = false.
Proof.
  induction s as [|c s IH]; [done|]. simpl. intros H.
  apply andb_prop in H as [Hc Hs]. apply negb_true_iff in Hc.
  destruct s; [done | by apply IH].
Qed.

Lemma concat_last (segs : list string) (s : string) :
  segs <> [] ->
  String.concat "/" (segs ++ [s]) = String.concat "/" segs +:+ "/" +:+ s.
Proof.
  induction segs as [|x segs IH]; [done|]. intros _.
  destruct segs as [|y segs].
  - reflexivity.
  - change (String.concat "/" ((x :: y :: segs) ++ [s]))
      with (x +:+ "/" +:+ String.concat "/" ((y :: segs) ++ [s])).
    rewrite IH by done. cbn [String.concat].
    by rewrite !append_assoc.
Qed.

(** For a directory that is absolute and normal and a name, [path.join]
    has nothing to normalize: it is [join]. *)
Lemma pathJoin_normal (dir : list string) (name : string) :
  dir <> [] -> forallb plainName dir = true -> plainName name = true ->
  Path.pathJoin ("/" +:+ String.concat "/" dir) name
  = Path.join ("/" +:+ String.concat "/" dir) name.
Proof.
  intros Hdir Hplain Hname.
  pose proof (plainName_kept _ Hname) as (_ & _ & Hslash).
  assert (Hne : name <> EmptyString) by (by destruct name).
  assert (Hall : forallb plainName (dir ++ [name]) = true).
  { rewrite forallb_app, Hplain. simpl. by rewrite Hname. }
  assert (Hns : forallb noSlash (dir ++ [name]) = true).
  { apply forallb_forall. intros x Hx.
    rewrite forallb_forall in Hall. by apply plainName_kept, Hall. }
  set (body := String.concat "/" (dir ++ [name])).
  assert (Hsplit : Path.splitSlash EmptyString body = (dir ++ [name])%list).
  { unfold body. rewrite splitSlash_concat; [|done|by destruct dir].
    by destruct dir. }
  assert (Hresolve : Path.resolveSegments false []
                       (EmptyString :: dir ++ [name]) = (dir ++ [name])%list).
  { cbn [Path.resolveSegments String.eqb orb].
    by rewrite resolveSegments_plain. }
  assert (Hbody : exists x rest, body = String x rest).
  { unfold body. destruct dir as [|d dir]; [done|].
    cbn [forallb] in Hplain. apply andb_prop in Hplain as [Hd _].
    destruct d as [|x d]; [done|].
    destruct dir; simpl; eauto. }
  assert (Hend : Path.endsWithSlash (String "/" body) = false).
  { change (String "/" body) with ("/" +:+ body).
    destruct Hbody as (x & rest & Hbody).
    rewrite endsWithSlash_app by (by rewrite Hbody).
    unfold body. rewrite concat_last by done.
    rewrite <- append_assoc, endsWithSlash_app by done.
    by apply endsWithSlash_name. }
  unfold Path.pathJoin, Path.join.
  change ("/" +:+ String.concat "/" dir) with (String "/" (String.concat "/" dir)).
  destruct name as [|c name']; [done|].
  set (name := String c name') in *.
  change ((String "/" (String.concat "/" dir)) +:+ "/" +:+ name)
    with (String "/" (String.concat "/" dir +:+ "/" +:+ name)).
  rewrite <- concat_last by done. fold body.
  unfold Path.normalize. cbn [Path.isAbsolute Path.splitSlash].
  rewrite !Ascii.eqb_refl. cbn [negb]. rewrite Hsplit, Hresolve, Hend.
  fold body. destruct Hbody as (x & rest & ->).
  by rewrite append_nil_r.
Qed.

Lemma matches_star (s : string) : Glob.matches "*" s = noSlash s.
Proof.
  induction s as [|d s IH]; [reflexivity|].
  simpl in *. by rewrite IH.
Qed.

Lemma matches_literal (lit p s : string) :
  literal lit = true ->
  Glob.matches (lit +:+ p) s
  = match Path.stripPrefix lit s with
    | Some r => Glob.matches p r
    | None => false
    end.
Proof.
  revert s; induction lit as [|c lit IH]; intros s Hlit; [reflexivity|].
  simpl in Hlit. apply andb_prop in Hlit as [Hc Hlit].
  apply negb_true_iff in Hc.
  change (String c lit +:+ p) with (String c (lit +:+ p)).
  cbn [Glob.matches Path.stripPrefix]. rewrite Hc.
  destruct s as [|d s]; [reflexivity|].
  destruct (Ascii.eqb c d); [by apply IH | reflexivity].
Qed.

Lemma matches_stem_star (stem s : string) :
  literal stem = true -> Glob.matches (stem +:+ "*") s = startsIn stem s.
Proof.
  intros H. rewrite (matches_literal _ _ _ H). unfold startsIn.
  destruct (Path.stripPrefix stem s); [apply matches_star | reflexivity].
Qed.

Lemma literal_app (a b : string) :
  literal a = true -> literal b = true -> literal (a +:+ b) = true.
Proof.
  intros Ha Hb. induction a as [|c a IH]; [done|].
  simpl in *. apply andb_prop in Ha as [-> Ha]. by rewrite IH.
Qed.

(** ** The engine patterns *)

Lemma lookupArchitecture_In (table : list (string * string))
    (key text : string) :
  lookupArchitecture table key = Some text -> In text (map snd table).
Proof.
  induction table as [|[k v] table IH]; simpl; [done|].
  destruct (String.eqb key k); [intros [= ->]; by left | intros H; right; auto].
Qed.

Lemma platform_literal (serverless : json) :
  literal (platformText serverless) = true.
Proof.
  unfold platformText, architectureMember.
  destruct (lookupArchitecture getArchitectures _) as [text|] eqn:Hown.
  - apply lookupArchitecture_In in Hown. simpl in Hown.
    repeat (destruct Hown as [<- | Hown]; [reflexivity|]). destruct Hown.
  - destruct (lookupArchitecture objectPrototypeMembers _) as [text|] eqn:Hin;
      [|reflexivity].
    apply lookupArchitecture_In in Hin. simpl in Hin.
    repeat (destruct Hin as [<- | Hin]; [reflexivity|]). destruct Hin.
Qed.

Lemma platformText_mapped (serverless : json) (platform : string) :
  resolvedPlatform serverless = Some platform ->
  platformText serverless = platform.
Proof.
  unfold resolvedPlatform, platformText, architectureMember. by intros ->.
Qed.

Lemma getPrismaEngines_positives (serverless : json) :
  Glob.positives (getPrismaEngines serverless)
  = map (fun stem => stem +:+ "*") engineStems.
Proof. reflexivity. Qed.

Lemma getPrismaEngines_negatives (serverless : json) :
  Glob.negatives (getPrismaEngines serverless)
  = map (fun stem =>
           stem +:+ "-" +:+ platformText serverless +:+ "*")
        engineStems.
Proof. reflexivity. Qed.

Lemma engineStems_literal (stem : string) :
  In stem engineStems -> literal stem = true.
Proof.
  unfold engineStems.
  intros H; repeat (destruct H as [<- | H]; [reflexivity|]); destruct H.
Qed.

Lemma existsb_map_ext {A B} (f : A -> B) (g : B -> bool) (h : A -> bool)
    (l : list A) :
  (forall a, In a l -> g (f a) = h a) -> existsb g (map f l) = existsb h l.
Proof.
  induction l as [|a l IH]; intros H; [reflexivity|].
  simpl. rewrite H by (by left). f_equal. apply IH.
  intros b Hb. apply H. by right.
Qed.

Lemma selects_getPrismaEngines (serverless : json) (rel : string) :
  Glob.selects (getPrismaEngines serverless) rel
  = engineFile rel
    && negb (targetEngine (platformText serverless) rel).
Proof.
  unfold Glob.selects.
  rewrite getPrismaEngines_positives, getPrismaEngines_negatives.
  unfold engineFile, targetEngine. f_equal; [|f_equal].
  - apply existsb_map_ext. intros stem Hstem.
    apply matches_stem_star, engineStems_literal, Hstem.
  - apply existsb_map_ext. intros stem Hstem.
    rewrite <- !append_assoc.
    apply matches_stem_star.
    rewrite append_assoc.
    apply literal_app; [by apply engineStems_literal|].
    apply (literal_app "-"); [reflexivity | apply platform_literal].
Qed.

(** ** Pruning *)

Lemma lookup_removeAll_in (cwd : string) (engines : list string)
    (f : gmap string node) (e : string) :
  e ∈ engines -> removeAll cwd engines f !! Path.join cwd e = None.
Proof.
  unfold removeAll. revert f.
  induction engines as [|x engines IH]; intros f He; [by inversion He|].
  simpl. apply elem_of_cons in He as [-> | He]; [|by apply IH].
  clear IH. generalize (delete (Path.join cwd x) f) (lookup_delete_eq f (Path.join cwd x)).
  induction engines as [|y engines IH]; intros g Hg; [done|].
  simpl. apply IH.
  destruct (decide (Path.join cwd y = Path.join cwd x)) as [->|Hne].
  - apply lookup_delete_eq.
  - by rewrite lookup_delete_ne.
Qed.

Lemma lookup_removeAll_out (cwd : string) (engines : list string)
    (f : gmap string node) (p : string) :
  (forall e, e ∈ engines -> p <> Path.join cwd e) ->
  removeAll cwd engines f !! p = f !! p.
Proof.
  unfold removeAll. revert f.
  induction engines as [|x engines IH]; intros f Hp; [done|].
  simpl. rewrite IH.
  - apply lookup_delete_ne. intros Heq. apply (Hp x); [left | done].
  - intros e He. apply Hp. by right.
Qed.

Lemma forEach_rm (cwd : string) (engines : list string) (w : world) :
  (forall e, e ∈ engines -> fs w !! Path.join cwd e <> Some Dir) ->
  forEach engines
    (fun engine =>
       log ("  - " +:+ engine) >> Fs.rmSync (Path.join cwd engine) false) w
  = Returned tt
      (World (removeAll cwd engines (fs w))
         (trace w
          ++ flat_map (fun e => [Log ("  - " +:+ e); Rm (Path.join cwd e)])
               engines)).
Proof.
  revert w. induction engines as [|x engines IH]; intros [f t] Hdir.
  - simpl. unfold ret. by rewrite app_nil_r.
  - cbn [forEach]. unfold bind at 1. unfold bind at 1.
    unfold log, emit, Fs.rmSync, bind, getFs, putFs, ret, throw. simpl.
    simpl in Hdir.
    assert (Hx : f !! Path.join cwd x <> Some Dir) by (apply Hdir; left).
    assert (Hstep : forall g, g = delete (Path.join cwd x) f ->
      forEach engines
        (fun engine =>
           log ("  - " +:+ engine) >> Fs.rmSync (Path.join cwd engine) false)
        (World g ((t ++ [Log ("  - " +:+ x)]) ++ [Rm (Path.join cwd x)]))
      = Returned tt
          (World (removeAll cwd (x :: engines) f)
             (t ++ Log ("  - " +:+ x) :: Rm (Path.join cwd x)
                :: flat_map (fun e => [Log ("  - " +:+ e); Rm (Path.join cwd e)])
                     engines))).
    { intros g ->. rewrite IH.
      - simpl. by rewrite <- !app_assoc.
      - intros e He. simpl.
        destruct (decide (Path.join cwd e = Path.join cwd x)) as [->|Hne].
        + by rewrite lookup_delete_eq.
        + rewrite lookup_delete_ne by done. apply Hdir. by right. }
    destruct (f !! Path.join cwd x) as [[c| |tgt]|] eqn:Hlook.
    + by apply Hstep.
    + done.
    + by apply Hstep.
    + apply Hstep. symmetry. by apply delete_id.
Qed.

Lemma foundEngines_spec (serverless : json) (cwd : string)
    (f : gmap string node) (rel : string) :
  rel ∈ foundEngines serverless cwd f
  <-> (exists c, f !! Path.join cwd rel = Some (File c))
      /\ Glob.selects (getPrismaEngines serverless) rel = true.
Proof.
  unfold foundEngines. rewrite list_elem_of_omap. split.
  - intros [[p n] [Hin Hsel]]. apply elem_of_map_to_list in Hin. simpl in Hsel.
    destruct n as [c| |tgt]; try done.
    destruct (Path.under cwd p) as [rel'|] eqn:Hunder; [|done].
    destruct (Glob.selects _ rel') eqn:Hs; [|done].
    injection Hsel as ->. apply under_join in Hunder as <-. eauto.
  - intros [[c Hc] Hsel]. exists (Path.join cwd rel, File c). split.
    + by apply elem_of_map_to_list.
    + simpl. by rewrite join_under, Hsel.
Qed.

Lemma deleteUnusedEngines_run (serverless : json) (cwd : string) (w : world) :
  deleteUnusedEngines serverless cwd w
  = Returned tt
      (World (removeAll cwd (foundEngines serverless cwd (fs w)) (fs w))
         (trace w ++ pruneEvents cwd (foundEngines serverless cwd (fs w)))).
Proof.
  unfold deleteUnusedEngines, Fs.globSync.
  unfold bind at 1. unfold bind at 1. unfold getFs at 1. unfold ret at 1.
  fold (foundEngines serverless cwd (fs w)).
  destruct (foundEngines serverless cwd (fs w)) as [|e engines] eqn:Hfound.
  - destruct w as [f t]. unfold ret. simpl. by rewrite app_nil_r.
  - unfold bind at 1. unfold log at 1, emit at 1.
    cbv zeta. rewrite forEach_rm.
    + simpl. by rewrite <- app_assoc.
    + intros x Hx. rewrite <- Hfound in Hx. simpl.
      apply foundEngines_spec in Hx as [[c Hc] _]. by rewrite Hc.
Qed.

Lemma pruned_spec (serverless : json) (cwd : string) (f : gmap string node)
    (p : string) :
  pruned serverless cwd f p = true
  <-> exists rel, p = Path.join cwd rel /\ rel ∈ foundEngines serverless cwd f.
Proof.
  unfold pruned. split.
  - destruct (f !! p) as [[c| |tgt]|] eqn:Hp; try done.
    destruct (Path.under cwd p) as [rel|] eqn:Hu; [|done].
    intros Hsel. exists rel. apply under_join in Hu as <-.
    split; [done|]. apply foundEngines_spec. eauto.
  - intros (rel & -> & Hrel). apply foundEngines_spec in Hrel as [[c Hc] Hsel].
    by rewrite Hc, join_under.
Qed.

Lemma deleteUnusedEngines_fs (serverless : json) (cwd : string) (w : world)
    (p : string) :
  fs (worldOf (deleteUnusedEngines serverless cwd w)) !! p
  = if pruned serverless cwd (fs w) p then None else fs w !! p.
Proof.
  rewrite deleteUnusedEngines_run. simpl.
  destruct (pruned serverless cwd (fs w) p) eqn:Hp.
  - apply pruned_spec in Hp as (rel & -> & Hrel).
    by apply lookup_removeAll_in.
  - apply lookup_removeAll_out. intros e He ->.
    assert (pruned serverless cwd (fs w) (Path.join cwd e) = true) as Ht
      by (apply pruned_spec; eauto).
    congruence.
Qed.

Lemma pruned_prunedFor (serverless : json) (cwd : string)
    (f : gmap string node) (p : string) :
  pruned serverless cwd f p
  = prunedFor (platformText serverless) cwd f p.
Proof.
  unfold pruned, prunedFor.
  destruct (f !! p) as [[c| |tgt]|]; try reflexivity.
  destruct (Path.under cwd p); [apply selects_getPrismaEngines | reflexivity].
Qed.

Lemma lookupArchitecture_None (table : list (string * string)) (key : string) :
  key ∉ map fst table -> lookupArchitecture table key = None.
Proof.
  induction table as [|[k v] table IH]; intros Hkey; [reflexivity|].
  simpl in *. apply not_elem_of_cons in Hkey as [Hne Hkey].
  destruct (String.eqb_spec key k); [done | by apply IH].
Qed.

(** ** C1: an architecture outside the mapping *)

(** C1, as the claim states it, fails: with the architecture [armv7], which
    is no key of the mapping, the pruning of a unit does not throw; it
    goes on with the text [undefined] in the exclusion patterns and removes
    the engine of every platform, the [rhel] one included. *)
Lemma C1_unmapped_architecture_not_refused :
  (JS.toString (getArchitecture armv7Host) ∉ map fst getArchitectures)
  /\ ~ (exists err w',
          deleteUnusedEngines armv7Host unitDir twoEngines = Thrown err w')
  /\ (fs (worldOf (deleteUnusedEngines armv7Host unitDir twoEngines))
        !! (Path.join unitDir
              "node_modules/.prisma/client/libquery_engine-rhel-openssl-3.0.x.so.node"))
     = None.
Proof.
  split; [|split].
  - vm_compute. intros H. repeat (apply elem_of_cons in H as [H|H]; [done|]).
    by apply elem_of_nil in H.
  - rewrite deleteUnusedEngines_run. by intros (err & w' & H).
  - rewrite deleteUnusedEngines_fs. reflexivity.
Qed.

(** C1, amended: for an architecture value that is no key of the mapping
    and no member name of [Object.prototype], the resolution does not
    fail: the platform identifier is [undefined], the exclusion patterns are
    built from the text [undefined], and [deleteUnusedEngines] returns after
    removing every engine file of the unit that is not named
    [<engine>-undefined...], leaving every other path as it was. *)
Theorem C1_unmapped_architecture_prunes_all (serverless : json)
    (cwd : string) (w : world) :
  JS.toString (getArchitecture serverless) ∉ map fst getArchitectures ->
  JS.toString (getArchitecture serverless) ∉ map fst objectPrototypeMembers ->
  resolvedPlatform serverless = None
  /\ architectureMember (JS.toString (getArchitecture serverless)) = None
  /\ Glob.negatives (getPrismaEngines serverless)
     = map (fun stem => stem +:+ "-undefined*") engineStems
  /\ exists w',
       deleteUnusedEngines serverless cwd w = Returned tt w'
       /\ forall p,
            fs w' !! p
            = if prunedFor "undefined" cwd (fs w) p then None else fs w !! p.
Proof.
  intros Hkey Hinherited.
  assert (Hnone : resolvedPlatform serverless = None)
    by (by apply lookupArchitecture_None).
  assert (Hmember :
    architectureMember (JS.toString (getArchitecture serverless)) = None).
  { unfold architectureMember. unfold resolvedPlatform in Hnone.
    rewrite Hnone. by apply lookupArchitecture_None. }
  assert (Htext : platformText serverless = "undefined").
  { unfold platformText. by rewrite Hmember. }
  split; [done|]. split; [done|]. split.
  - rewrite getPrismaEngines_negatives, Htext. reflexivity.
  - eexists. split; [apply deleteUnusedEngines_run|].
    intros p.
    pose proof (deleteUnusedEngines_fs serverless cwd w p) as Hfs.
    rewrite deleteUnusedEngines_run in Hfs. simpl in Hfs.
    simpl. by rewrite Hfs, pruned_prunedFor, Htext.
Qed.

Lemma C1_unmapped_architecture_prunes_all_witness :
  (JS.toString (getArchitecture armv7Host) ∉ map fst getArchitectures)
  /\ (JS.toString (getArchitecture armv7Host) ∉ map fst objectPrototypeMembers)
  /\ resolvedPlatform armv7Host = None
  /\ architectureMember (JS.toString (getArchitecture armv7Host)) = None
  /\ Glob.negatives (getPrismaEngines armv7Host)
     = map (fun stem => stem +:+ "-undefined*") engineStems
  /\ exists w',
       deleteUnusedEngines armv7Host unitDir twoEngines = Returned tt w'
       /\ forall p,
            fs w' !! p
            = if prunedFor "undefined" unitDir (fs twoEngines) p
              then None else fs twoEngines !! p.
Proof.
  assert (H : JS.toString (getArchitecture armv7Host) ∉ map fst getArchitectures).
  { vm_compute. intros H. repeat (apply elem_of_cons in H as [H|H]; [done|]).
    by apply elem_of_nil in H. }
  assert (H' : JS.toString (getArchitecture armv7Host)
               ∉ map fst objectPrototypeMembers).
  { vm_compute. intros H0. repeat (apply elem_of_cons in H0 as [H0|H0]; [done|]).
    by apply elem_of_nil in H0. }
  split; [exact H|]. split; [exact H'|].
  exact (C1_unmapped_architecture_prunes_all armv7Host unitDir twoEngines H H').
Defined.

(** ** C7: what the pruning keeps and removes *)

(** C7, as the claim states it, fails: on the default architecture
    ([x86_64], platform [rhel]) an engine file whose name contains [rhel]
    after another word is matched by an inclusion pattern and by no
    exclusion pattern, and it is removed. *)
Lemma C7_name_containing_platform_removed :
  resolvedPlatform defaultHost = Some "rhel"
  /\ includesStr "rhel"
       "node_modules/prisma/libquery_engine-backup-rhel-openssl-3.0.x.so.node"
     = true
  /\ (fs renamedEngine
        !! (Path.join unitDir
              "node_modules/prisma/libquery_engine-backup-rhel-openssl-3.0.x.so.node"))
     = Some (File "rhel")
  /\ (fs (worldOf (deleteUnusedEngines defaultHost unitDir renamedEngine))
        !! (Path.join unitDir
              "node_modules/prisma/libquery_engine-backup-rhel-openssl-3.0.x.so.node"))
     = None.
Proof.
  split; [reflexivity|]. split; [reflexivity|]. split; [reflexivity|].
  rewrite deleteUnusedEngines_fs. reflexivity.
Qed.

(** C7, amended: for an architecture that is a key of the mapping, with
    platform identifier [platform], [deleteUnusedEngines] returns, and
    - it removes no path of the unit named [<engine>-<platform>...], where
      [<engine>] is one of the engine names under its install location;
    - it removes every other file of the unit an inclusion pattern matches;
    - it leaves every path that is no such file as it was;
    - when no file is to be removed, the world is left as it was, the
      narration included. *)
Theorem C7_pruning_keeps_target_platform (serverless : json)
    (platform cwd : string) (w : world) :
  resolvedPlatform serverless = Some platform ->
  exists w',
    deleteUnusedEngines serverless cwd w = Returned tt w'
    /\ (forall rel,
          targetEngine platform rel = true ->
          fs w' !! Path.join cwd rel = fs w !! Path.join cwd rel)
    /\ (forall rel c,
          fs w !! Path.join cwd rel = Some (File c) ->
          engineFile rel = true -> targetEngine platform rel = false ->
          fs w' !! Path.join cwd rel = None)
    /\ (forall p, prunedFor platform cwd (fs w) p = false ->
                  fs w' !! p = fs w !! p)
    /\ ((forall p, prunedFor platform cwd (fs w) p = false) -> w' = w).
Proof.
  intros Hplat. eexists. split; [apply deleteUnusedEngines_run|].
  assert (Hfs : forall p,
    removeAll cwd (foundEngines serverless cwd (fs w)) (fs w) !! p
    = if prunedFor platform cwd (fs w) p then None else fs w !! p).
  { intros p. pose proof (deleteUnusedEngines_fs serverless cwd w p) as H.
    rewrite deleteUnusedEngines_run in H. simpl in H.
    by rewrite H, pruned_prunedFor, (platformText_mapped _ _ Hplat). }
  simpl. repeat split.
  - intros rel Htarget. rewrite Hfs. unfold prunedFor.
    rewrite join_under, Htarget, andb_false_r.
    by destruct (fs w !! Path.join cwd rel) as [[| |]|].
  - intros rel c Hfile Hengine Htarget. rewrite Hfs. unfold prunedFor.
    by rewrite Hfile, join_under, Hengine, Htarget.
  - intros p Hp. by rewrite Hfs, Hp.
  - intros Hnone.
    assert (foundEngines serverless cwd (fs w) = []) as ->.
    { destruct (foundEngines serverless cwd (fs w)) as [|e es] eqn:Hfound; [done|].
      assert (pruned serverless cwd (fs w) (Path.join cwd e) = true) as Hp.
      { apply pruned_spec. exists e. split; [done|]. rewrite Hfound. by left. }
      rewrite pruned_prunedFor, (platformText_mapped _ _ Hplat) in Hp.
      simpl in Hp.
      by rewrite Hnone in Hp. }
    destruct w as [f t]. simpl. by rewrite app_nil_r.
Qed.

Lemma C7_pruning_keeps_target_platform_witness :
  resolvedPlatform defaultHost = Some "rhel"
  /\ exists w',
    deleteUnusedEngines defaultHost unitDir twoEngines = Returned tt w'
    /\ (forall rel,
          targetEngine "rhel" rel = true ->
          fs w' !! Path.join unitDir rel = fs twoEngines !! Path.join unitDir rel)
    /\ (forall rel c,
          fs twoEngines !! Path.join unitDir rel = Some (File c) ->
          engineFile rel = true -> targetEngine "rhel" rel = false ->
          fs w' !! Path.join unitDir rel = None)
    /\ (forall p, prunedFor "rhel" unitDir (fs twoEngines) p = false ->
                  fs w' !! p = fs twoEngines !! p)
    /\ ((forall p, prunedFor "rhel" unitDir (fs twoEngines) p = false) ->
        w' = twoEngines).
Proof.
  split; [reflexivity|].
  apply (C7_pruning_keeps_target_platform defaultHost "rhel" unitDir twoEngines).
  reflexivity.
Defined.

(** ** Objects: [assign] and [remove] touch one key *)

Lemma others_assign (k : string) (v : json) (kvs : list (string * json)) :
  others k (assign k v kvs) = others k kvs.
Proof.
  unfold others. induction kvs as [|[k' v'] kvs IH]; simpl.
  - by rewrite String.eqb_refl.
  - destruct (String.eqb k k') eqn:Hk; simpl;
      rewrite ?String.eqb_refl, ?Hk, ?IH; done.
Qed.


Lemma assoc_assign (k : string) (v : json) (kvs : list (string * json)) :
  assoc k (assign k v kvs) = Some v.
Proof.
  induction kvs as [|[k' v'] kvs IH]; simpl.
  - by rewrite String.eqb_refl.
  - destruct (String.eqb k k') eqn:Hk; simpl.
    + by rewrite String.eqb_refl.
    + by rewrite Hk.
Qed.

Lemma assoc_assign_ne (k k' : string) (v : json) (kvs : list (string * json)) :
  k <> k' -> assoc k' (assign k v kvs) = assoc k' kvs.
Proof.
  intros Hne. induction kvs as [|[k0 v0] kvs IH]; simpl.
  - destruct (String.eqb_spec k' k); [congruence | done].
  - destruct (String.eqb_spec k k0) as [->|]; simpl.
    + destruct (String.eqb_spec k' k0); [congruence | done].
    + by rewrite IH.
Qed.




Lemma remove_absent (k : string) (kvs : list (string * json)) :
  assoc k kvs = None -> remove k kvs = kvs.
Proof.
  induction kvs as [|[k' v'] kvs IH]; simpl; [done|].
  destruct (String.eqb k k'); [done|]. intros H. by rewrite IH.
Qed.

Lemma assign_same (k : string) (v : json) (kvs : list (string * json)) :
  assoc k kvs = Some v -> assign k v kvs = kvs.
Proof.
  induction kvs as [|[k' v'] kvs IH]; simpl; [done|].
  destruct (String.eqb_spec k k') as [->|]; [by intros [= ->]|].
  intros H. by rewrite IH.
Qed.

(** ** The manifest update *)

Lemma stringToPath_script :
  Lodash.stringToPath "scripts.prisma:generate" = ["scripts"; "prisma:generate"].
Proof. reflexivity. Qed.

Lemma castPath_script (top : list (string * json)) :
  assoc "scripts.prisma:generate" top = None ->
  Lodash.castPath "scripts.prisma:generate" (JObj top)
  = ["scripts"; "prisma:generate"].
Proof. unfold Lodash.castPath, hasProp. simpl. by intros ->. Qed.

Lemma updateScripts_add (top : list (string * json)) :
  assoc "scripts.prisma:generate" top = None ->
  (forall xs, assoc "scripts" top <> Some (JArr xs)) ->
  updateScripts ScriptAdd (JObj top)
  = JObj (assign "scripts"
            (JObj (assign "prisma:generate" (JStr "prisma generate")
                     (scriptsOf top)))
            top).
Proof.
  intros Hdot Harr. unfold updateScripts, Lodash.set. simpl.
  rewrite castPath_script by done. unfold scriptsOf. simpl.
  destruct (assoc "scripts" top) as [[| | | |xs|scripts]|]; try reflexivity.
  by destruct (Harr xs).
Qed.

Lemma updateScripts_remove (top : list (string * json)) :
  assoc "scripts.prisma:generate" top = None ->
  updateScripts ScriptRemove (JObj top)
  = match assoc "scripts" top with
    | Some (JObj scripts) =>
        JObj (assign "scripts" (JObj (remove "prisma:generate" scripts)) top)
    | _ => JObj top
    end.
Proof.
  intros Hdot. unfold updateScripts, Lodash.unset.
  rewrite castPath_script by done. simpl.
  destruct (assoc "scripts" top) as [[| | | |xs|scripts]|] eqn:Hs;
    try reflexivity; simpl; by rewrite assign_same.
Qed.

Lemma managePackageScripts_run (JSON_parse : string -> option json)
    (action : scriptAction) (cwd : string) (w : world)
    (contents : string) (parsed : json) :
  fs w !! manifestPath cwd = Some (File contents) ->
  JSON_parse contents = Some parsed ->
  managePackageScripts JSON_parse action cwd w
  = Returned tt
      (World
         (<[manifestPath cwd := File (Json.stringify (updateScripts action parsed))]>
            (fs w))
         (trace w
          ++ [WriteFile (manifestPath cwd)
                (Json.stringify (updateScripts action parsed))])).
Proof.
  intros Hfile Hparse.
  unfold managePackageScripts, Fs.readFileSync, Fs.writeFileSync.
  unfold bind, getFs, ret, emit, putFs. fold (manifestPath cwd).
  rewrite Hfile. cbv zeta. by rewrite Hparse, Hfile.
Qed.

Lemma runCommand_run
    (execSync : string -> string -> gmap string node -> exit)
    (command : json) (args : list json) (cwd : string) (w : world) :
  runCommand execSync command args cwd w
  = match execSync (commandLine command args) cwd (fs w) with
    | Exited true f' =>
        Returned tt
          (World f' (trace w ++ [Exec (commandLine command args) cwd]))
    | Exited false f' =>
        Thrown "Command failed"
          (World f' (trace w ++ [Exec (commandLine command args) cwd]))
    end.
Proof.
  unfold runCommand, bind, emit, getFs, putFs, throw, commandLine. simpl.
  by destruct (execSync _ cwd (fs w)) as [[] f'].
Qed.

(** ** C2: the data-proxy flag *)

(** C2 at the failing input: with [custom.prisma.dataProxy] set to [true]
    and the manifest [{ scripts: {} }], the install step writes the script
    [prisma generate]; the text written does not end in [--data-proxy].
    [managePackageScripts] never reads the option. *)
Lemma C2_data_proxy_flag_not_appended :
  Lodash.get (Some dataProxyHost) "service.custom.prisma.dataProxy"
  = Some (JBool true)
  /\ (fs (worldOf (installPrismaPackage dataProxyHost quietExec
                     (parseOf [emptyScripts]) unitDir
                     (manifestWorld emptyScripts)))
        !! manifestPath unitDir)
     = Some (File (Json.stringify
                     (JObj [("scripts",
                             JObj [("prisma:generate", JStr "prisma generate")])])))
  /\ updateScripts ScriptAdd emptyScripts
     = JObj [("scripts", JObj [("prisma:generate", JStr "prisma generate")])].
Proof. split; [reflexivity|]. split; [|reflexivity]. by vm_compute. Qed.

(** ** C9: the install command *)

(** C9, as the claim states it, fails: on a manifest with a top-level key
    spelled [scripts.prisma:generate] the install step rewrites that key,
    adds no script entry (the manifest written has no [scripts] at all),
    and runs the install command all the same. *)
Lemma C9_install_without_script_entry :
  installPrismaPackage defaultHost quietExec (parseOf [dottedNoScripts])
    unitDir (manifestWorld dottedNoScripts)
  = Returned tt
      (World
         {[ manifestPath unitDir :=
              File (Json.stringify
                      (JObj [ ("name", JStr "app");
                              ("scripts.prisma:generate",
                               JStr "prisma generate") ])) ]}
         [ Log "Installing prisma devDependencies...";
           WriteFile (manifestPath unitDir)
             (Json.stringify
                (JObj [ ("name", JStr "app");
                        ("scripts.prisma:generate", JStr "prisma generate") ]));
           Exec "npm install -D prisma" unitDir ])
  /\ Lodash.walk
       (Some (JObj [ ("name", JStr "app");
                     ("scripts.prisma:generate", JStr "prisma generate") ]))
       ["scripts"; "prisma:generate"]
     = None.
Proof. split; by vm_compute. Qed.

(** C9, amended: for a manifest that parses to an object with no top-level
    key spelled [scripts.prisma:generate] and whose [scripts] entry is
    absent or an object, [installPrismaPackage] narrates, then rewrites the
    manifest so that its [scripts] object has [prisma:generate] set to
    [prisma generate] (every other top-level entry and every other script
    as before), then runs [<packager> install -D <specifier>] in the unit
    directory and nothing else; the specifier is [prisma@<version>] when a
    version is configured and not empty, and the bare [prisma] when it is
    absent or empty. The step returns when the command succeeds and throws
    when it fails, with the files as the command left them. *)
Theorem C9_install_command
    (serverless : json)
    (execSync : string -> string -> gmap string node -> exit)
    (JSON_parse : string -> option json)
    (cwd : string) (w : world) (contents : string)
    (top : list (string * json)) (packager version : string) :
  fs w !! manifestPath cwd = Some (File contents) ->
  JSON_parse contents = Some (JObj top) ->
  assoc "scripts.prisma:generate" top = None ->
  scriptsWellFormed top ->
  getPackageManager serverless = JStr packager ->
  getPrismaVersion serverless = JStr version ->
  let specifier :=
    if String.eqb version EmptyString then "prisma" else "prisma@" +:+ version in
  let command := packager +:+ " install -D " +:+ specifier in
  exists top',
    assoc "scripts" top' = Some (JObj (scriptsOf top'))
    /\ assoc "prisma:generate" (scriptsOf top') = Some (JStr "prisma generate")
    /\ others "scripts" top' = others "scripts" top
    /\ others "prisma:generate" (scriptsOf top')
       = others "prisma:generate" (scriptsOf top)
    /\ let written := Json.stringify (JObj top') in
       let steps :=
         (trace w
          ++ [ Log "Installing prisma devDependencies...";
               WriteFile (manifestPath cwd) written;
               Exec command cwd ])%list in
       let rewritten := <[manifestPath cwd := File written]> (fs w) in
       installPrismaPackage serverless execSync JSON_parse cwd w
       = match execSync command cwd rewritten with
         | Exited true f' => Returned tt (World f' steps)
         | Exited false f' => Thrown "Command failed" (World f' steps)
         end.
Proof.
  intros Hfile Hparse Hdot Hwf Hpm Hver. cbv zeta.
  assert (Harr : forall xs, assoc "scripts" top <> Some (JArr xs)).
  { intros xs. destruct Hwf as [H | [s H]]; rewrite H; done. }
  exists (assign "scripts"
            (JObj (assign "prisma:generate" (JStr "prisma generate")
                     (scriptsOf top)))
            top).
  assert (Hscripts : forall s,
    scriptsOf (assign "scripts" (JObj s) top) = s).
  { intros s. unfold scriptsOf. by rewrite assoc_assign. }
  rewrite !Hscripts.
  split; [apply assoc_assign|]. split; [apply assoc_assign|].
  split; [apply others_assign|]. split; [apply others_assign|].
  unfold installPrismaPackage.
  unfold bind at 1. unfold log at 1, emit at 1.
  unfold bind at 1.
  rewrite (managePackageScripts_run JSON_parse ScriptAdd cwd _ contents
             (JObj top)) by done.
  rewrite updateScripts_add by done.
  cbv zeta. rewrite runCommand_run, Hpm, Hver. cbn [fs trace truthy].
  rewrite <- !app_assoc. cbn [app].
  destruct (String.eqb version EmptyString) eqn:Hv; cbn [negb].
  - change (commandLine (JStr packager)
              [JStr "install"; JStr "-D"; JStr (JS.join "@" [JStr "prisma"])])
      with (packager +:+ " install -D " +:+ "prisma").
    reflexivity.
  - change (commandLine (JStr packager)
              [JStr "install"; JStr "-D";
               JStr (JS.join "@" [JStr "prisma"; JStr version])])
      with (packager +:+ " install -D " +:+ "prisma@" +:+ version).
    reflexivity.
Qed.

Lemma C9_install_command_witness :
  exists top',
    assoc "scripts" top' = Some (JObj (scriptsOf top'))
    /\ assoc "prisma:generate" (scriptsOf top') = Some (JStr "prisma generate")
    /\ others "scripts" top' = others "scripts" [("scripts", JObj [])]
    /\ others "prisma:generate" (scriptsOf top')
       = others "prisma:generate" (scriptsOf [("scripts", JObj [])])
    /\ installPrismaPackage pinnedHost quietExec (parseOf [emptyScripts])
         unitDir (manifestWorld emptyScripts)
       = Returned tt
           (World
              (<[manifestPath unitDir := File (Json.stringify (JObj top'))]>
                 (fs (manifestWorld emptyScripts)))
              (trace (manifestWorld emptyScripts)
               ++ [ Log "Installing prisma devDependencies...";
                    WriteFile (manifestPath unitDir)
                      (Json.stringify (JObj top'));
                    Exec "yarn install -D prisma@5.0.0" unitDir ])).
Proof.
  refine (C9_install_command pinnedHost quietExec (parseOf [emptyScripts])
            unitDir (manifestWorld emptyScripts)
            (Json.stringify emptyScripts) [("scripts", JObj [])]
            "yarn" "5.0.0" eq_refl eq_refl eq_refl _ eq_refl eq_refl).
  right. eexists. reflexivity.
Defined.

(** ** C6: the manifest rewrite touches one script *)





(** ** C10: a manifest without scripts *)

Lemma assign_absent (k : string) (v : json) (kvs : list (string * json)) :
  assoc k kvs = None -> assign k v kvs = (kvs ++ [(k, v)])%list.
Proof.
  induction kvs as [|[k' v'] kvs IH]; simpl; [done|].
  destruct (String.eqb k k'); [done|]. intros H. by rewrite IH.
Qed.

(** C10, as the claim states it, fails: a manifest that is valid JSON and
    has no [scripts] object may have a top-level key spelled
    [scripts.prisma:generate]; [add] then rewrites that key and creates no
    [scripts] object. *)
Lemma C10_no_scripts_object_created :
  getProp dottedNoScripts "scripts" = None
  /\ updateScripts ScriptAdd dottedNoScripts
     = JObj [ ("name", JStr "app");
              ("scripts.prisma:generate", JStr "prisma generate") ]
  /\ getProp (updateScripts ScriptAdd dottedNoScripts) "scripts" = None
  /\ (fs (worldOf (managePackageScripts (parseOf [dottedNoScripts]) ScriptAdd
                     unitDir (manifestWorld dottedNoScripts)))
        !! manifestPath unitDir)
     = Some (File (Json.stringify
                     (JObj [ ("name", JStr "app");
                             ("scripts.prisma:generate", JStr "prisma generate") ]))).
Proof. repeat split; by vm_compute. Qed.

(** C10, amended: for a manifest that parses to an object with no
    top-level key spelled [scripts.prisma:generate] and with no script
    [prisma:generate], whose [scripts] entry is no array,
    - [add] returns after writing the manifest with [prisma:generate] put
      last among the scripts it had, every other top-level entry as before;
      when the [scripts] entry was absent or a primitive, the new [scripts]
      object holds that one key;
    - [remove] returns after writing the manifest back as it was parsed. *)
Theorem C10_manifest_without_script
    (JSON_parse : string -> option json)
    (cwd : string) (w : world) (contents : string)
    (top : list (string * json)) :
  fs w !! manifestPath cwd = Some (File contents) ->
  JSON_parse contents = Some (JObj top) ->
  assoc "scripts.prisma:generate" top = None ->
  lacksScript top ->
  (forall xs, assoc "scripts" top <> Some (JArr xs)) ->
  let added :=
    assign "scripts" (JObj (scriptsOf top ++ [generateEntry])) top in
  managePackageScripts JSON_parse ScriptAdd cwd w
  = Returned tt
      (World
         (<[manifestPath cwd := File (Json.stringify (JObj added))]> (fs w))
         (trace w ++ [WriteFile (manifestPath cwd) (Json.stringify (JObj added))]))
  /\ others "scripts" added = others "scripts" top
  /\ (scriptsMissing top -> assoc "scripts" added = Some (JObj [generateEntry]))
  /\ managePackageScripts JSON_parse ScriptRemove cwd w
     = Returned tt
         (World
            (<[manifestPath cwd := File (Json.stringify (JObj top))]> (fs w))
            (trace w ++ [WriteFile (manifestPath cwd) (Json.stringify (JObj top))])).
Proof.
  intros Hfile Hparse Hdot Hlacks Harr. cbv zeta.
  assert (Hk : assoc "prisma:generate" (scriptsOf top) = None).
  { unfold lacksScript in Hlacks. unfold scriptsOf. simpl in Hlacks.
    by destruct (assoc "scripts" top) as [[| | | |xs|scripts]|]. }
  split; [|split; [|split]].
  - rewrite (managePackageScripts_run _ _ _ _ _ _ Hfile Hparse).
    rewrite updateScripts_add by done. unfold generateEntry.
    by rewrite (assign_absent _ _ _ Hk).
  - apply others_assign.
  - unfold scriptsMissing, scriptsOf. rewrite assoc_assign.
    by destruct (assoc "scripts" top) as [[| | | |xs|scripts]|].
  - rewrite (managePackageScripts_run _ _ _ _ _ _ Hfile Hparse).
    rewrite updateScripts_remove by done.
    destruct (assoc "scripts" top) as [[| | | |xs|scripts]|] eqn:Hs; try done.
    unfold scriptsOf in Hk. rewrite Hs in Hk.
    by rewrite (remove_absent _ _ Hk), (assign_same _ _ _ Hs).
Qed.

Lemma C10_manifest_without_script_witness :
  managePackageScripts (parseOf [noScriptsManifest]) ScriptAdd unitDir
    (manifestWorld noScriptsManifest)
  = Returned tt
      (World
         (<[manifestPath unitDir :=
              File (Json.stringify
                      (JObj [ ("name", JStr "app"); ("version", JStr "1.0.0");
                              ("scripts", JObj [generateEntry]) ]))]>
            (fs (manifestWorld noScriptsManifest)))
         [WriteFile (manifestPath unitDir)
            (Json.stringify
               (JObj [ ("name", JStr "app"); ("version", JStr "1.0.0");
                       ("scripts", JObj [generateEntry]) ]))])
  /\ others "scripts"
       [ ("name", JStr "app"); ("version", JStr "1.0.0");
         ("scripts", JObj [generateEntry]) ]
     = others "scripts" [("name", JStr "app"); ("version", JStr "1.0.0")]
  /\ (scriptsMissing [("name", JStr "app"); ("version", JStr "1.0.0")] ->
      assoc "scripts"
        [ ("name", JStr "app"); ("version", JStr "1.0.0");
          ("scripts", JObj [generateEntry]) ]
      = Some (JObj [generateEntry]))
  /\ managePackageScripts (parseOf [noScriptsManifest]) ScriptRemove unitDir
       (manifestWorld noScriptsManifest)
     = Returned tt
         (World
            (<[manifestPath unitDir := File (Json.stringify noScriptsManifest)]>
               (fs (manifestWorld noScriptsManifest)))
            [WriteFile (manifestPath unitDir) (Json.stringify noScriptsManifest)]).
Proof.
  refine (C10_manifest_without_script (parseOf [noScriptsManifest]) unitDir
            (manifestWorld noScriptsManifest)
            (Json.stringify noScriptsManifest)
            [("name", JStr "app"); ("version", JStr "1.0.0")] _ _ _ _ _).
  - by vm_compute.
  - by vm_compute.
  - reflexivity.
  - reflexivity.
  - intros xs. discriminate.
Defined.

(** ** The function selector *)

Lemma bind_Returned {A B} (m : M A) (k : A -> M B) (w w' : world) (b : B) :
  bind m k w = Returned b w' ->
  exists a w1, m w = Returned a w1 /\ k a w1 = Returned b w'.
Proof. unfold bind. destruct (m w) as [a w1|e w1]; [eauto | done]. Qed.

Lemma readOnly_ret {A} (a : A) : readOnly (ret a).
Proof. by intros w. Qed.

Lemma readOnly_throw {A} (e : string) : readOnly (@throw A e).
Proof. by intros w. Qed.

Lemma readOnly_bind {A B} (m : M A) (k : A -> M B) :
  readOnly m -> (forall a, readOnly (k a)) -> readOnly (bind m k).
Proof.
  intros Hm Hk w. unfold bind. specialize (Hm w).
  destruct (m w) as [a w1|e w1]; simpl in Hm; subst; [apply Hk | done].
Qed.

Lemma readOnly_if {A} (b : bool) (m1 m2 : M A) :
  readOnly m1 -> readOnly m2 -> readOnly (if b then m1 else m2).
Proof. by destruct b. Qed.

Lemma readOnly_matchNode (v : json) : readOnly (matchNode v).
Proof. destruct v; (apply readOnly_ret || apply readOnly_throw). Qed.

Lemma readOnly_isRuntimeNode (serverless func : json) :
  readOnly (isRuntimeNode serverless func).
Proof.
  unfold isRuntimeNode. apply readOnly_bind; [apply readOnly_matchNode|].
  intros a. apply readOnly_if; [apply readOnly_ret | apply readOnly_matchNode].
Qed.

Lemma readOnly_keepFunction (serverless : json) (name : string) :
  readOnly (keepFunction serverless name).
Proof.
  unfold keepFunction. apply readOnly_bind.
  { unfold getFunction. destruct (assoc name (registry serverless));
      (apply readOnly_ret || apply readOnly_throw). }
  intros func. apply readOnly_bind.
  { unfold isFunctionImage. destruct func;
      (apply readOnly_ret || apply readOnly_throw). }
  intros image. apply readOnly_if; [apply readOnly_ret|].
  apply readOnly_bind; [apply readOnly_isRuntimeNode|].
  intros node. repeat (apply readOnly_if; try apply readOnly_ret).
Qed.

Lemma keepFunction_world (serverless : json) (name : string) (w : world) :
  worldOf (keepFunction serverless name w) = w.
Proof. apply readOnly_keepFunction. Qed.

Lemma keepFunction_Returned (serverless : json) (name : string)
    (w w' : world) (b : bool) :
  keepFunction serverless name w = Returned b w' -> w' = w.
Proof.
  intros H. pose proof (keepFunction_world serverless name w) as Hw.
  by rewrite H in Hw.
Qed.

Lemma filterM_keepFunction (serverless : json) (names kept : list string)
    (w w' : world) :
  filterM (keepFunction serverless) names w = Returned kept w' ->
  w' = w
  /\ forall name, name ∈ kept ->
       name ∈ names /\ keepFunction serverless name w = Returned true w.
Proof.
  revert kept w'. induction names as [|x names IH]; intros kept w' H.
  - injection H as <- <-. split; [done|]. intros name Hin. by inversion Hin.
  - cbn [filterM] in H.
    apply bind_Returned in H as (keep & w1 & Hx & H).
    pose proof (keepFunction_Returned _ _ _ _ _ Hx) as ->.
    apply bind_Returned in H as (kept' & w2 & Hrest & H).
    apply IH in Hrest as [-> Hkept]. injection H as <- <-.
    split; [done|]. intros name Hin.
    destruct keep.
    + apply elem_of_cons in Hin as [-> | Hin].
      * split; [by left | done].
      * destruct (Hkept _ Hin). split; [by right | done].
    + destruct (Hkept _ Hin). split; [by right | done].
Qed.

(** ** C8: image-based functions *)

(** C8: a registered function whose definition has an [image] property,
    whatever its value and whatever the runtime of the function or of the
    provider, is refused by the selector's test, and is in no list that
    [getNodeFunctions] returns; under per-function packaging that list is
    the one [getFunctionNames] returns. *)
Theorem C8_image_functions_excluded (serverless : json) (name : string)
    (func image : json) (w : world) :
  assoc name (registry serverless) = Some func ->
  getProp func "image" = Some image ->
  keepFunction serverless name w = Returned false w
  /\ (forall kept w',
        getNodeFunctions serverless w = Returned kept w' -> name ∉ kept)
  /\ (truthy (Lodash.getOr (Some serverless) "service.package.individually"
                (JBool false)) = true ->
      forall kept w',
        getFunctionNames serverless w = Returned kept w' -> name ∉ kept).
Proof.
  intros Hfunc Himage.
  assert (Hkeep : keepFunction serverless name w = Returned false w).
  { unfold keepFunction, getFunction, bind. rewrite Hfunc.
    unfold isFunctionImage, ret. destruct func; try done. by rewrite Himage. }
  assert (Hnode : forall kept w',
    getNodeFunctions serverless w = Returned kept w' -> name ∉ kept).
  { intros kept w' Hrun Hin. unfold getNodeFunctions in Hrun.
    apply filterM_keepFunction in Hrun as [_ Hkept].
    destruct (Hkept _ Hin) as [_ Htrue]. congruence. }
  split; [done|]. split; [done|].
  intros Hind kept w' Hrun. unfold getFunctionNames in Hrun.
  rewrite Hind in Hrun. by apply (Hnode kept w').
Qed.

Lemma C8_image_functions_excluded_witness :
  keepFunction mixedHost "fn5" emptyWorld = Returned false emptyWorld
  /\ (forall kept w',
        getNodeFunctions mixedHost emptyWorld = Returned kept w' -> "fn5" ∉ kept)
  /\ (truthy (Lodash.getOr (Some mixedHost) "service.package.individually"
                (JBool false)) = true ->
      forall kept w',
        getFunctionNames mixedHost emptyWorld = Returned kept w' -> "fn5" ∉ kept).
Proof.
  exact (C8_image_functions_excluded mixedHost "fn5"
           (JObj [("image", JStr "dummy")]) (JStr "dummy") emptyWorld
           eq_refl eq_refl).
Defined.

(** ** C4: the runtime test *)

(** [isRuntimeNode] reads [handler.runtime]: on a definition whose handler
    is absent or no object (it is a string in a service descriptor) it finds
    nothing there, and the answer is the provider's alone. *)
Lemma isRuntimeNode_provider_only (serverless : json)
    (fields : list (string * json)) :
  assoc "handler.runtime" fields = None ->
  (forall hs, assoc "handler" fields <> Some (JObj hs)) ->
  isRuntimeNode serverless (JObj fields)
  = matchNode
      match getProviderRuntime serverless with
      | Some r => if truthy r then r else JStr "node"
      | None => JStr "node"
      end.
Proof.
  intros Hdot Hhandler. unfold isRuntimeNode, Lodash.getOr, Lodash.get.
  unfold Lodash.baseGet, Lodash.castPath, hasProp. simpl. rewrite Hdot.
  change (Lodash.stringToPath "handler.runtime") with ["handler"; "runtime"].
  simpl.
  destruct (assoc "handler" fields) as [[| | | | |hs]|]; try reflexivity.
  by destruct (Hhandler hs).
Qed.

(** C4 at the failing input, the registry of the test suite: [fn4]
    declares the runtime [python3.9], which does not contain [node], and
    the provider names no runtime; the selector keeps [fn4], where the
    test expects [fn1] and [fn2] only. *)
Lemma C4_python_function_selected :
  getProp (JObj [("runtime", JStr "python3.9")]) "runtime"
  = Some (JStr "python3.9")
  /\ includesStr "node" "python3.9" = false
  /\ getProviderRuntime mixedHost = None
  /\ keepFunction mixedHost "fn4" emptyWorld = Returned true emptyWorld
  /\ getNodeFunctions mixedHost emptyWorld
     = Returned ["fn1"; "fn2"; "fn4"] emptyWorld
  /\ getFunctionNames mixedHost emptyWorld
     = Returned ["fn1"; "fn2"; "fn4"] emptyWorld.
Proof. repeat split; by vm_compute. Qed.

(** ** C3: placing the schema twice *)

Lemma append_neq (a b : string) : b <> EmptyString -> a +:+ b <> a.
Proof.
  intros Hb. induction a as [|c a IH]; simpl; [done|].
  intros [= H]. by apply IH.
Qed.

Lemma join_neq (a b : string) : Path.join a b <> a.
Proof. unfold Path.join. by apply append_neq. Qed.

(** *** Paths below a directory, and the links on the way *)

Lemma beforeName_join (a name : string) :
  Path.beforeName name = None -> Path.startsName name = true ->
  Path.beforeName (a +:+ "/" +:+ name) = Some a.
Proof.
  intros Hname Hstart. induction a as [|c a IH].
  - cbn [String.append Path.beforeName]. rewrite Hname.
    by rewrite Hstart.
  - cbn [String.append Path.beforeName] in IH |- *. by rewrite IH.
Qed.

Lemma dirname_join (a name : string) :
  a <> EmptyString -> a <> "/" ->
  Path.beforeName name = None -> Path.startsName name = true ->
  Path.dirname (Path.join a name) = a.
Proof.
  intros Ha Hroot Hname Hstart. unfold Path.join.
  destruct a as [|c a]; [done|].
  change (Path.dirname (String c (a +:+ "/" +:+ name)) = String c a).
  unfold Path.dirname. rewrite beforeName_join by done.
  destruct (Ascii.eqb c "/"%char) eqn:Hc; [|done].
  destruct (String.eqb a EmptyString) eqn:Hempty; [|done].
  apply Ascii.eqb_eq in Hc as ->. apply String.eqb_eq in Hempty as ->. done.
Qed.

Lemma dirname_schema (cwd : string) :
  Path.dirname (Path.join (Path.join cwd "prisma") "schema.prisma")
  = Path.join cwd "prisma".
Proof.
  apply dirname_join; try reflexivity.
  - unfold Path.join. by destruct cwd.
  - unfold Path.join. destruct cwd as [|c cwd]; [done|].
    cbn [String.append]. intros [= _ H]. by destruct cwd.
Qed.

Lemma follow_None (fuel : nat) (f : gmap string node) (p : string) :
  f !! p = None -> Fs.follow fuel f p = Fs.Dangling p.
Proof. intros H. destruct fuel; simpl; by rewrite H. Qed.

Lemma follow_Dir (fuel : nat) (f : gmap string node) (p : string) :
  f !! p = Some Dir -> Fs.follow fuel f p = Fs.Reached p Dir.
Proof. intros H. destruct fuel; simpl; by rewrite H. Qed.

Lemma follow_Reached (fuel : nat) (f : gmap string node) (p q : string)
    (n : node) :
  Fs.follow fuel f p = Fs.Reached q n -> is_Some (f !! p).
Proof.
  destruct fuel; simpl; destruct (f !! p) as [x|]; eauto; discriminate.
Qed.

Lemma onWay_Dir (fuel : nat) (f : gmap string node) (p k : string) :
  f !! p = Some Dir -> p <> k -> Fs.onWay fuel f p k = false.
Proof.
  intros H Hne. apply String.eqb_neq in Hne.
  destruct fuel; simpl; by rewrite H, Hne.
Qed.

Lemma holds_insert (f : gmap string node) (k q : string) (v : node) :
  Fs.holds f q = true -> Fs.holds (<[k := v]> f) q = true.
Proof.
  unfold Fs.holds. rewrite !existsb_exists.
  intros ([x n] & Hin & Hbelow). simpl in Hbelow.
  apply list_elem_of_In, elem_of_map_to_list in Hin.
  destruct (decide (x = k)) as [->|Hne].
  - exists (k, v). split; [|done].
    apply list_elem_of_In, elem_of_map_to_list. apply lookup_insert_eq.
  - exists (x, n). split; [|done].
    apply list_elem_of_In, elem_of_map_to_list. by rewrite lookup_insert_ne.
Qed.

(** Writing at a path that the lookup of [p] does not pass leaves where
    [p] leads. *)
Lemma follow_insert (fuel : nat) (f : gmap string node) (p q k : string)
    (d v : node) :
  Fs.follow fuel f p = Fs.Reached q d ->
  Fs.onWay fuel f p k = false ->
  Fs.follow fuel (<[k := v]> f) p = Fs.Reached q d
  /\ Fs.onWay fuel (<[k := v]> f) p k = false.
Proof.
  revert p. induction fuel as [|fuel IH]; intros p Hfollow Hway.
  - simpl in *. apply orb_false_elim in Hway as [Hpk _].
    apply String.eqb_neq in Hpk. rewrite lookup_insert_ne by done.
    destruct (f !! p) as [[c| |t]|]; try done;
      (split; [done|]); apply orb_false_intro; try done;
      by apply String.eqb_neq.
  - simpl in *. apply orb_false_elim in Hway as [Hpk Hway].
    apply String.eqb_neq in Hpk. rewrite lookup_insert_ne by done.
    destruct (f !! p) as [[c| |t]|]; try done;
      try (split; [done|]; apply orb_false_intro; try done;
           by apply String.eqb_neq).
    set (target := Path.resolve (Path.dirname p) t) in *.
    assert (Htk : target <> k).
    { intros ->. destruct fuel; simpl in Hway;
        by rewrite String.eqb_refl in Hway. }
    rewrite lookup_insert_ne by done.
    destruct (f !! target) as [x|] eqn:Htarget.
    + destruct (IH target Hfollow Hway) as [H1 H2].
      split; [done|]. apply orb_false_intro; [by apply String.eqb_neq | done].
    + split.
      * destruct (Fs.holds f target) eqn:Hholds; [|done].
        by rewrite holds_insert.
      * apply orb_false_intro; [by apply String.eqb_neq|].
        destruct fuel; simpl; simpl in Hway;
          apply orb_false_elim in Hway as [Htk' _];
          rewrite lookup_insert_ne, Htarget by done;
          by rewrite Htk'.
Qed.

(** *** [cpSync] into a directory path *)

Lemma checkPaths_None (src dst real : string) (n : node) (dest : option node) :
  n <> Dir ->
  Fs.checkPaths src dst real n dest = None
  <-> (dest = None \/ (real <> src /\ is_Some dest /\ dest <> Some Dir)).
Proof.
  intros Hn. unfold Fs.checkPaths.
  destruct dest as [d|].
  - destruct (String.eqb real src) eqn:Heq.
    + apply String.eqb_eq in Heq. split; [done|].
      intros [?|(? & _)]; done.
    + apply String.eqb_neq in Heq.
      destruct n as [c| |t], d as [c'| |t']; simpl; try done;
        split; try done; try (intros _; right; eauto);
        intros [?|(_ & _ & ?)]; done.
  - destruct n; simpl; try done; split; eauto.
Qed.

(** [cpSync] of what is no directory into the schema directory of a unit,
    once that directory has a node: it returns exactly when the directory
    leads to a directory, the entry there is not the source nor a
    directory, and the way there does not pass at the entry. *)
Lemma cpSync_Returned (src td name : string) (w w' : world) :
  Path.dirname (Path.join td name) = td ->
  is_Some (fs w !! td) ->
  Fs.cpSync src (Path.join td name) w = Returned tt w' ->
  exists n q,
    fs w !! src = Some n /\ n <> Dir
    /\ Fs.follow Fs.maxLinks (fs w) td = Fs.Reached q Dir
    /\ Path.join q name <> src
    /\ fs w !! Path.join q name <> Some Dir
    /\ Fs.onWay Fs.maxLinks (fs w) td (Path.join q name) = false
    /\ w' = World (<[Path.join q name := n]> (fs w))
              (trace w ++ [Cp src (Path.join td name)]).
Proof.
  intros Hdir [x Htd]. unfold Fs.cpSync. unfold bind at 1, getFs at 1.
  rewrite Hdir, join_under, Htd.
  destruct (fs w !! src) as [n|] eqn:Hsrc; [|done].
  destruct (Fs.follow Fs.maxLinks (fs w) td) as [q d| |] eqn:Hfollow;
    [|by destruct (Fs.checkPaths src _ _ n None)|done].
  destruct d as [c| |t]; [done| |done].
  destruct (Fs.checkPaths src (Path.join td name) (Path.join q name) n
              (fs w !! Path.join q name)) as [err|] eqn:Hcheck; [done|].
  assert (Hn : n = Dir \/ n <> Dir) by (destruct n; eauto).
  destruct Hn as [->|Hn]; [done|].
  apply checkPaths_None in Hcheck; [|done].
  unfold Fs.copyNode, bind, getFs, putFs, emit, throw.
  destruct (Fs.onWay Fs.maxLinks (fs w) td (Path.join q name)) eqn:Hway;
    [by destruct n|].
  intros H. exists n, q.
  assert (Hw' : w' = World (<[Path.join q name := n]> (fs w))
                       (trace w ++ [Cp src (Path.join td name)])).
  { destruct n; [|done|]; by injection H as <-. }
  repeat split; try done.
  - destruct Hcheck as [Hnone|(Hne & _)]; [|done]. congruence.
  - destruct Hcheck as [Hnone|(_ & _ & Hd)]; [|done]. by rewrite Hnone.
Qed.

Lemma cpSync_run (src td name q : string) (n : node) (w : world) :
  Path.dirname (Path.join td name) = td ->
  fs w !! src = Some n -> n <> Dir ->
  Fs.follow Fs.maxLinks (fs w) td = Fs.Reached q Dir ->
  Path.join q name <> src ->
  fs w !! Path.join q name <> Some Dir ->
  Fs.onWay Fs.maxLinks (fs w) td (Path.join q name) = false ->
  Fs.cpSync src (Path.join td name) w
  = Returned tt
      (World (<[Path.join q name := n]> (fs w))
         (trace w ++ [Cp src (Path.join td name)])).
Proof.
  intros Hdir Hsrc Hn Hfollow Hne Hdest Hway.
  destruct (follow_Reached _ _ _ _ _ Hfollow) as [x Htd].
  unfold Fs.cpSync. unfold bind at 1, getFs at 1.
  rewrite Hdir, join_under, Htd, Hsrc, Hfollow.
  assert (Hcheck : Fs.checkPaths src (Path.join td name) (Path.join q name) n
                     (fs w !! Path.join q name) = None).
  { apply checkPaths_None; [done|].
    destruct (fs w !! Path.join q name) as [d|] eqn:Hd; [right | by left].
    repeat split; eauto. }
  rewrite Hcheck. unfold Fs.copyNode, bind, getFs, putFs, emit. rewrite Hway.
  by destruct n.
Qed.

Lemma Returned_eq {A} (a b : A) (w w' : world) :
  Returned a w = Returned b w' -> a = b /\ w = w'.
Proof. by intros [= -> ->]. Qed.

Lemma existsSync_run (p : string) (w : world) :
  Fs.existsSync p w
  = Returned
      (match Fs.follow Fs.maxLinks (fs w) p with
       | Fs.Reached _ _ => true
       | _ => false
       end) w.
Proof. reflexivity. Qed.

(** What a copy of the schema that returned has found and done. *)
Lemma schema_copy_Returned (relative : string -> string -> string)
    (cwd prismaDir : string) (w w' : world) :
  let targetDir := Path.join cwd "prisma" in
  let source := Path.join prismaDir "schema.prisma" in
  managePrismaSchema relative SchemaCopy cwd prismaDir w = Returned tt w' ->
  exists n q made f1,
    (((exists q0 n0, Fs.follow Fs.maxLinks (fs w) targetDir = Fs.Reached q0 n0)
      /\ made = [] /\ f1 = fs w)
     \/ (fs w !! targetDir = None /\ made = [Mkdir targetDir]
         /\ f1 = <[targetDir := Dir]> (fs w)))
    /\ f1 !! source = Some n /\ n <> Dir
    /\ Fs.follow Fs.maxLinks f1 targetDir = Fs.Reached q Dir
    /\ Path.join q "schema.prisma" <> source
    /\ f1 !! Path.join q "schema.prisma" <> Some Dir
    /\ Fs.onWay Fs.maxLinks f1 targetDir (Path.join q "schema.prisma") = false
    /\ w' = World (<[Path.join q "schema.prisma" := n]> f1)
              (trace w
               ++ schemaEvents relative SchemaCopy cwd prismaDir made).
Proof.
  cbv zeta. unfold managePrismaSchema.
  set (td := Path.join cwd "prisma").
  set (src := Path.join prismaDir "schema.prisma").
  intros H.
  apply bind_Returned in H as ([] & w0 & Hlog & H).
  unfold log, emit in Hlog. injection Hlog as <-.
  apply bind_Returned in H as (present & w0 & Hex & H).
  rewrite existsSync_run in Hex. apply Returned_eq in Hex as [<- <-].
  apply bind_Returned in H as ([] & w0 & Hmk & H).
  cbn [fs trace] in Hmk.
  assert (Hmade : exists made,
            (((exists q0 n0,
                 Fs.follow Fs.maxLinks (fs w) td = Fs.Reached q0 n0)
              /\ made = [] /\ fs w0 = fs w)
             \/ (fs w !! td = None /\ made = [Mkdir td]
                 /\ fs w0 = <[td := Dir]> (fs w)))
            /\ is_Some (fs w0 !! td)
            /\ trace w0
               = (trace w ++ Log "Copying Prisma schema..." :: made)%list).
  { destruct (Fs.follow Fs.maxLinks (fs w) td) as [q0 n0| |] eqn:Hfollow.
    - unfold ret in Hmk. injection Hmk as <-. exists []. cbn [fs trace].
      split; [left; eauto|]. split; [|done].
      by apply (follow_Reached _ _ _ _ _ Hfollow).
    - unfold Fs.mkdirSync, bind, getFs, emit, putFs, throw in Hmk.
      cbn [fs trace] in Hmk.
      destruct (fs w !! td) eqn:Htd; [done|]. injection Hmk as <-.
      exists [Mkdir td]. cbn [fs trace].
      split; [by right|]. split; [by rewrite lookup_insert_eq|].
      by rewrite <- app_assoc.
    - unfold Fs.mkdirSync, bind, getFs, emit, putFs, throw in Hmk.
      cbn [fs trace] in Hmk.
      destruct (fs w !! td) eqn:Htd; [done|]. injection Hmk as <-.
      exists [Mkdir td]. cbn [fs trace].
      split; [by right|]. split; [by rewrite lookup_insert_eq|].
      by rewrite <- app_assoc. }
  destruct Hmade as (made & Hmade & Htd & Htrace).
  apply cpSync_Returned in H; [|apply dirname_schema|done].
  destruct H as (n & q & Hsrc & Hn & Hfollow & Hne & Hdest & Hway & ->).
  exists n, q, made, (fs w0). repeat split; try done.
  rewrite Htrace. unfold schemaEvents. f_equal.
  by rewrite <- app_assoc.
Qed.

(** X14: in copy mode a second placement succeeds and leaves the files as the
    first one did. *)
Lemma managePrismaSchema_copy_again (relative : string -> string -> string)
    (cwd prismaDir : string) (w w1 : world) :
  managePrismaSchema relative SchemaCopy cwd prismaDir w = Returned tt w1 ->
  exists w2,
    managePrismaSchema relative SchemaCopy cwd prismaDir w1 = Returned tt w2
    /\ fs w2 = fs w1.
Proof.
  intros H. apply schema_copy_Returned in H.
  destruct H as (n & q & made & f1 & _ & Hsrc & Hn & Hfollow & Hne & Hdest
                 & Hway & ->).
  set (td := Path.join cwd "prisma") in *.
  set (src := Path.join prismaDir "schema.prisma") in *.
  set (real := Path.join q "schema.prisma") in *.
  destruct (follow_insert _ _ _ _ real _ n Hfollow Hway) as [Hfollow' Hway'].
  eexists. split.
  - unfold managePrismaSchema. fold td src.
    unfold bind at 1. unfold log at 1, emit at 1.
    unfold bind at 1. rewrite existsSync_run. cbn [fs trace].
    rewrite Hfollow'. unfold bind at 1. unfold ret at 1.
    apply (cpSync_run src td "schema.prisma" q n); cbn [fs trace]; try done.
    + apply dirname_schema.
    + by rewrite lookup_insert_ne.
    + fold real. by rewrite lookup_insert_eq; intros [= ->].
  - cbn [fs]. fold real. apply insert_id. apply lookup_insert_eq.
Qed.

(** C3 at the failing input: in symlink mode the first placement makes the
    link, and a second placement on the same unit throws [EEXIST] at
    [symlinkSync], after narrating and before changing anything. *)
Lemma C3_symlink_second_run_throws :
  managePrismaSchema twoUp SchemaSymlink unitDir schemaDir schemaWorld
  = Returned tt
      (World (<[Path.join unitDir "prisma" := Link "../../prisma"]> (fs schemaWorld))
         [ Log "Creating symlink for Prisma schema...";
           Symlink "../../prisma" (Path.join unitDir "prisma") ])
  /\ managePrismaSchema twoUp SchemaSymlink unitDir schemaDir
       (worldOf (managePrismaSchema twoUp SchemaSymlink unitDir schemaDir
                   schemaWorld))
     = Thrown "EEXIST"
         (World (<[Path.join unitDir "prisma" := Link "../../prisma"]> (fs schemaWorld))
            [ Log "Creating symlink for Prisma schema...";
              Symlink "../../prisma" (Path.join unitDir "prisma");
              Log "Creating symlink for Prisma schema..." ]).
Proof. split; by vm_compute. Qed.

(** ** The steps of one unit *)

Lemma readOnly_Returned {A} (m : M A) (w w' : world) (a : A) :
  readOnly m -> m w = Returned a w' -> w' = w.
Proof. intros Hm H. specialize (Hm w). by rewrite H in Hm. Qed.











Lemma readOnly_servicePath (serverless : json) : readOnly (servicePath serverless).
Proof.
  unfold servicePath.
  destruct (getProp serverless "config") as [[]|];
    (apply readOnly_ret || apply readOnly_throw).
Qed.

Lemma readOnly_getPrismaPath (serverless : json) :
  readOnly (getPrismaPath serverless).
Proof.
  apply readOnly_bind; [apply readOnly_servicePath|].
  intros d. apply readOnly_ret.
Qed.

Lemma readOnly_getWebpackOutputPath (serverless : json) :
  readOnly (getWebpackOutputPath serverless).
Proof.
  apply readOnly_bind; [apply readOnly_servicePath|].
  intros d. apply readOnly_ret.
Qed.




(** * Further properties of the plugin *)

(** ** The selector: what it keeps, and in which order *)

Lemma keepFunction_true (serverless : json) (name : string) (w w' : world) :
  keepFunction serverless name w = Returned true w' ->
  exists func,
    assoc name (registry serverless) = Some func
    /\ getProp func "image" = None
    /\ isRuntimeNode serverless func w = Returned true w
    /\ isFunctionIgnored serverless name = false.
Proof.
  unfold keepFunction, getFunction. intros H.
  destruct (assoc name (registry serverless)) as [func|]; [|done].
  exists func. split; [done|].
  apply bind_Returned in H as (f & w1 & Hf & H). injection Hf as <- <-.
  apply bind_Returned in H as (image & w1 & Himage & H).
  pose proof (readOnly_Returned (isFunctionImage func) w w1 image) as Hro.
  assert (w1 = w) as ->.
  { apply Hro; [|done]. intros w0. unfold isFunctionImage.
    by destruct func. }
  destruct image; [done|].
  assert (getProp func "image" = None) as Hnone.
  { unfold isFunctionImage, ret, throw in Himage.
    destruct func; try done; destruct (getProp _ "image"); done. }
  split; [done|].
  apply bind_Returned in H as (node & w1 & Hnode & H).
  pose proof (readOnly_Returned _ _ _ _ (readOnly_isRuntimeNode serverless func)
                Hnode) as ->.
  destruct node; [|done]. split; [done|].
  simpl in H. by destruct (isFunctionIgnored serverless name).
Qed.

(** X1: a name on the ignore list is in no list the selector returns, whatever
    its definition. *)
Theorem ignored_functions_excluded (serverless : json) (name : string)
    (w w' : world) (kept : list string) :
  isFunctionIgnored serverless name = true ->
  getNodeFunctions serverless w = Returned kept w' ->
  name ∉ kept.
Proof.
  intros Hignored Hrun Hin. unfold getNodeFunctions in Hrun.
  apply filterM_keepFunction in Hrun as [_ Hkept].
  destruct (Hkept _ Hin) as [_ Htrue].
  apply keepFunction_true in Htrue as (func & _ & _ & _ & Hno). congruence.
Qed.

Lemma ignored_functions_excluded_witness :
  "fn3" ∉ ["fn1"; "fn2"; "fn4"].
Proof.
  apply (ignored_functions_excluded mixedHost "fn3" emptyWorld emptyWorld);
    by vm_compute.
Defined.

Lemma filterM_sublist {A} (pred : A -> M bool) (xs kept : list A)
    (w w' : world) :
  filterM pred xs w = Returned kept w' -> sublist kept xs.
Proof.
  revert kept w. induction xs as [|x xs IH]; intros kept w H.
  - injection H as <- <-. constructor.
  - cbn [filterM] in H. apply bind_Returned in H as (keep & w1 & _ & H).
    apply bind_Returned in H as (kept' & w2 & Hrest & H).
    injection H as <- <-. apply IH in Hrest.
    destruct keep; by constructor.
Qed.

(** X2: the selector returns registered names only, each at most as often as
    it is registered, in the registry's order. *)
Theorem getNodeFunctions_keeps_registry_order (serverless : json)
    (w w' : world) (kept : list string) :
  getNodeFunctions serverless w = Returned kept w' ->
  sublist kept (getAllFunctions serverless).
Proof. apply filterM_sublist. Qed.

Lemma getNodeFunctions_keeps_registry_order_witness :
  sublist ["fn1"; "fn2"; "fn4"] (getAllFunctions mixedHost).
Proof.
  apply (getNodeFunctions_keeps_registry_order mixedHost emptyWorld emptyWorld).
  by vm_compute.
Defined.

Lemma filterM_total {A} (pred : A -> M bool) (p : A -> bool) (xs : list A)
    (w : world) :
  (forall x, x ∈ xs -> pred x w = Returned (p x) w) ->
  filterM pred xs w = Returned (List.filter p xs) w.
Proof.
  induction xs as [|x xs IH]; intros H; [reflexivity|].
  cbn [filterM]. unfold bind at 1. rewrite H by (by left).
  unfold bind at 1. rewrite IH by (intros y Hy; apply H; by right).
  simpl. by destruct (p x).
Qed.

Lemma assoc_elem_of (k : string) (v : json) (kvs : list (string * json)) :
  assoc k kvs = Some v -> (k, v) ∈ kvs.
Proof.
  induction kvs as [|[k' v'] kvs IH]; simpl; [done|].
  destruct (String.eqb_spec k k') as [->|].
  - intros [= ->]. by left.
  - intros H. right. by apply IH.
Qed.

Lemma elem_of_keys_assoc (k : string) (kvs : list (string * json)) :
  k ∈ map fst kvs -> exists v, assoc k kvs = Some v.
Proof.
  induction kvs as [|[k' v'] kvs IH]; simpl; intros H; [by inversion H|].
  destruct (String.eqb_spec k k') as [->|Hne]; [eauto|].
  apply elem_of_cons in H as [?|H]; [done | by apply IH].
Qed.

(** X3: when every registered definition is an object whose handler is
    absent or no object and that has no key spelled [handler.runtime], and
    the provider runtime is a string (or absent), the selector never
    throws, and what it keeps is decided by the provider runtime alone, the
    image property and the ignore list: every function without image that
    is not ignored when the provider runtime contains [node] (or is
    absent), and none otherwise, whatever the [runtime] property of the
    functions says. *)
Theorem getNodeFunctions_by_provider_runtime (serverless : json)
    (runtime : string) (w : world) :
  providerRuntimeOf serverless = JStr runtime ->
  Forall (fun kv => plainDefinition kv.2) (registry serverless) ->
  getNodeFunctions serverless w
  = Returned
      (List.filter
         (fun name =>
            negb (hasImage serverless name)
            && includesStr "node" runtime
            && negb (isFunctionIgnored serverless name))
         (getAllFunctions serverless))
      w.
Proof.
  intros Hruntime Hplain. unfold getNodeFunctions.
  apply filterM_total. intros name Hname.
  apply elem_of_keys_assoc in Hname as [func Hfunc].
  pose proof (assoc_elem_of _ _ _ Hfunc) as Hin.
  rewrite Forall_forall in Hplain. apply Hplain in Hin. simpl in Hin.
  destruct Hin as (fields & -> & Hdot & Hhandler).
  unfold keepFunction, getFunction, hasImage. rewrite Hfunc.
  unfold bind at 1. unfold ret at 1.
  unfold bind at 1. unfold isFunctionImage, ret at 1.
  unfold hasProp. destruct (getProp (JObj fields) "image"); [reflexivity|].
  rewrite isRuntimeNode_provider_only by done.
  fold (providerRuntimeOf serverless). rewrite Hruntime.
  unfold bind, matchNode, ret. simpl.
  destruct (includesStr "node" runtime); [|reflexivity].
  simpl. by destruct (isFunctionIgnored serverless name).
Qed.

Lemma getNodeFunctions_by_provider_runtime_witness :
  getNodeFunctions pythonProviderHost emptyWorld = Returned [] emptyWorld.
Proof.
  refine (getNodeFunctions_by_provider_runtime pythonProviderHost "python3.9"
            emptyWorld eq_refl _).
  repeat constructor; eexists; (split; [reflexivity|]); split; try reflexivity;
    intros hs; discriminate.
Defined.

Lemma filterM_throws {A} (pred : A -> M bool) (xs : list A) (x : A)
    (e : string) (w : world) :
  (forall y, readOnly (pred y)) ->
  x ∈ xs -> pred x w = Thrown e w ->
  exists e', filterM pred xs w = Thrown e' w.
Proof.
  intros Hro Hx Hthrow. induction xs as [|y xs IH]; [by inversion Hx|].
  cbn [filterM]. unfold bind at 1.
  pose proof (Hro y w) as Hy.
  destruct (pred y w) as [keep w1|e1 w1] eqn:Hpred; simpl in Hy; subst w1;
    [|eauto].
  apply elem_of_cons in Hx as [->|Hx]; [congruence|].
  destruct (IH Hx) as [e' He']. unfold bind. rewrite He'. eauto.
Qed.

Lemma readOnly_joinValue (a : value) (b : string) : readOnly (joinValue a b).
Proof.
  unfold joinValue. destruct a as [[| | |s| |]|];
    (apply readOnly_ret || apply readOnly_throw).
Qed.

(** X4: a registered function whose definition is [null] makes the selector
    throw; under per-function packaging the whole run then throws before
    any unit is touched: no file is changed, nothing is narrated, no
    command is run. *)
Theorem null_definition_stops_the_run (serverless : json)
    (execSync : string -> string -> gmap string node -> exit)
    (JSON_parse : string -> option json)
    (relative : string -> string -> string)
    (name : string) (w : world) :
  assoc name (registry serverless) = Some JNull ->
  truthy (Lodash.getOr (Some serverless) "service.package.individually"
            (JBool false)) = true ->
  (exists e, getNodeFunctions serverless w = Thrown e w)
  /\ (exists e,
        onBeforeWebpackPackage serverless execSync JSON_parse relative w
        = Thrown e w).
Proof.
  intros Hnull Hind.
  assert (Hsel : exists e, getNodeFunctions serverless w = Thrown e w).
  { unfold getNodeFunctions.
    apply (filterM_throws _ _ name "TypeError").
    - apply readOnly_keepFunction.
    - unfold getAllFunctions. apply assoc_elem_of in Hnull.
      by apply (list_elem_of_fmap_2 fst) in Hnull.
    - unfold keepFunction, getFunction, bind. by rewrite Hnull. }
  split; [done|]. destruct Hsel as [e He].
  unfold onBeforeWebpackPackage.
  unfold bind at 1. pose proof (readOnly_getPrismaPath serverless w) as H1.
  destruct (getPrismaPath serverless w) as [pp w1|e1 w1]; simpl in H1; subst w1;
    [|eauto].
  unfold bind at 1. pose proof (readOnly_joinValue pp "prisma" w) as H2.
  destruct (joinValue pp "prisma" w) as [pd w1|e1 w1]; simpl in H2; subst w1;
    [|eauto].
  unfold bind at 1. pose proof (readOnly_getWebpackOutputPath serverless w) as H3.
  destruct (getWebpackOutputPath serverless w) as [op w1|e1 w1];
    simpl in H3; subst w1; [|eauto].
  unfold bind at 1. pose proof (readOnly_joinValue op ".webpack" w) as H4.
  destruct (joinValue op ".webpack" w) as [wd w1|e1 w1]; simpl in H4; subst w1;
    [|eauto].
  unfold bind at 1. unfold getFunctionNames. rewrite Hind, He. eauto.
Qed.

Lemma null_definition_stops_the_run_witness :
  (exists e, getNodeFunctions nullDefinitionHost serviceWorld = Thrown e serviceWorld)
  /\ (exists e,
        onBeforeWebpackPackage nullDefinitionHost quietExec (parseOf manifests)
          twoUp serviceWorld
        = Thrown e serviceWorld).
Proof.
  exact (null_definition_stops_the_run nullDefinitionHost quietExec
           (parseOf manifests) twoUp "fn2" serviceWorld eq_refl eq_refl).
Defined.

(** ** The manifest: repeating and undoing the update *)

Lemma assign_assign (k : string) (v v' : json) (kvs : list (string * json)) :
  assign k v (assign k v' kvs) = assign k v kvs.
Proof.
  induction kvs as [|[k0 v0] kvs IH]; simpl.
  - by rewrite String.eqb_refl.
  - destruct (String.eqb k k0) eqn:Hk; simpl.
    + by rewrite String.eqb_refl.
    + by rewrite Hk, IH.
Qed.

Lemma remove_assign_absent (k : string) (v : json) (kvs : list (string * json)) :
  assoc k kvs = None -> remove k (assign k v kvs) = kvs.
Proof.
  induction kvs as [|[k0 v0] kvs IH]; simpl.
  - by rewrite String.eqb_refl.
  - destruct (String.eqb k k0) eqn:Hk; [done|]. simpl. rewrite Hk.
    intros H. by rewrite IH.
Qed.

Lemma setProp_setProp (o : json) (k : string) (v v' : json) :
  setProp (setProp o k v') k v = setProp o k v.
Proof. destruct o; simpl; try reflexivity. by rewrite assign_assign. Qed.

Lemma isObject_setProp (o : json) (k : string) (v : json) :
  isObject (setProp o k v) = isObject o.
Proof. by destruct o. Qed.

Lemma set_script_dotted (top : list (string * json)) (d v : json) :
  assoc "scripts.prisma:generate" top = Some d ->
  Lodash.set (JObj top) "scripts.prisma:generate" v
  = JObj (assign "scripts.prisma:generate" v top).
Proof.
  intros Hdot. unfold Lodash.set, Lodash.castPath, hasProp. simpl.
  by rewrite Hdot.
Qed.

Lemma set_script_split (top : list (string * json)) (v : json) :
  assoc "scripts.prisma:generate" top = None ->
  Lodash.set (JObj top) "scripts.prisma:generate" v
  = JObj (assign "scripts"
            (setProp
               match assoc "scripts" top with
               | Some c => if isObject c then c else JObj []
               | None => JObj []
               end "prisma:generate" v)
            top).
Proof.
  intros Hdot. unfold Lodash.set. cbn [isObject].
  by rewrite castPath_script.
Qed.

(** X5: setting the script twice is setting it once, on every parsed value:
    a repeated install step leaves the manifest tree as the first did. *)
Theorem updateScripts_add_twice (parsed : json) :
  updateScripts ScriptAdd (updateScripts ScriptAdd parsed)
  = updateScripts ScriptAdd parsed.
Proof.
  unfold updateScripts.
  destruct parsed as [| | | |xs|top]; try reflexivity.
  destruct (assoc "scripts.prisma:generate" top) as [d|] eqn:Hdot.
  - rewrite (set_script_dotted top d) by done.
    rewrite (set_script_dotted _ (JStr "prisma generate"))
      by apply assoc_assign.
    by rewrite assign_assign.
  - rewrite (set_script_split top) by done.
    rewrite set_script_split by (by rewrite assoc_assign_ne).
    rewrite assoc_assign, isObject_setProp.
    assert (Hchild : isObject
      match assoc "scripts" top with
      | Some c => if isObject c then c else JObj []
      | None => JObj []
      end = true).
    { destruct (assoc "scripts" top) as [c|]; [|done].
      by destruct (isObject c) eqn:Hc. }
    rewrite Hchild, setProp_setProp. by rewrite assign_assign.
Qed.

(** X6: removing the script after setting it gives the manifest back when it
    had a [scripts] object without that script; a manifest that had no
    [scripts] object keeps an empty one (in place of a [scripts] entry that
    was a primitive, last when there was none). *)
Theorem updateScripts_add_then_remove (top : list (string * json)) :
  assoc "scripts.prisma:generate" top = None ->
  lacksScript top ->
  (forall xs, assoc "scripts" top <> Some (JArr xs)) ->
  updateScripts ScriptRemove (updateScripts ScriptAdd (JObj top))
  = match assoc "scripts" top with
    | Some (JObj scripts) => JObj top
    | _ => JObj (assign "scripts" (JObj []) top)
    end.
Proof.
  intros Hdot Hlacks Harr.
  assert (Hk : assoc "prisma:generate" (scriptsOf top) = None).
  { unfold lacksScript in Hlacks. unfold scriptsOf. simpl in Hlacks.
    by destruct (assoc "scripts" top) as [[| | | |xs|scripts]|]. }
  rewrite updateScripts_add by done.
  rewrite updateScripts_remove by (by rewrite assoc_assign_ne).
  rewrite assoc_assign, assign_assign, (remove_assign_absent _ _ _ Hk).
  unfold scriptsOf.
  destruct (assoc "scripts" top) as [[| | | |xs|scripts]|] eqn:Hs;
    try reflexivity.
  by rewrite (assign_same _ _ _ Hs).
Qed.

Lemma updateScripts_add_then_remove_witness :
  updateScripts ScriptRemove (updateScripts ScriptAdd noScriptsManifest)
  = JObj [ ("name", JStr "app"); ("version", JStr "1.0.0");
           ("scripts", JObj []) ].
Proof.
  refine (updateScripts_add_then_remove
            [("name", JStr "app"); ("version", JStr "1.0.0")] eq_refl eq_refl _).
  intros xs. discriminate.
Defined.

(** X7: a manifest that is missing, or that does not parse, makes the script
    update throw with nothing written; the install step then stops after
    its narration, and runs no command. *)
Theorem unreadable_manifest_stops_install (serverless : json)
    (execSync : string -> string -> gmap string node -> exit)
    (JSON_parse : string -> option json)
    (action : scriptAction) (cwd : string) (w : world) :
  fs w !! manifestPath cwd = None
  \/ (exists contents,
        fs w !! manifestPath cwd = Some (File contents)
        /\ JSON_parse contents = None) ->
  exists e,
    managePackageScripts JSON_parse action cwd w = Thrown e w
    /\ installPrismaPackage serverless execSync JSON_parse cwd w
       = Thrown e
           (World (fs w)
              (trace w ++ [Log "Installing prisma devDependencies..."])).
Proof.
  intros H.
  assert (Hany : forall act w0,
    fs w0 = fs w ->
    managePackageScripts JSON_parse act cwd w0
    = Thrown (match fs w !! manifestPath cwd with
              | None => "ENOENT" | Some _ => "SyntaxError" end) w0).
  { intros act w0 Hfs.
    unfold managePackageScripts, Fs.readFileSync, bind, getFs, ret, throw.
    fold (manifestPath cwd). rewrite Hfs.
    destruct H as [-> | (contents & -> & Hparse)]; [done|].
    by rewrite Hparse. }
  eexists. split; [by apply Hany|].
  unfold installPrismaPackage. unfold bind at 1. unfold log at 1, emit at 1.
  unfold bind at 1. by rewrite Hany.
Qed.

Lemma unreadable_manifest_stops_install_witness :
  exists e,
    managePackageScripts (parseOf manifests) ScriptAdd unitDir schemaWorld
    = Thrown e schemaWorld
    /\ installPrismaPackage defaultHost quietExec (parseOf manifests) unitDir
         schemaWorld
       = Thrown e
           (World (fs schemaWorld)
              (trace schemaWorld ++ [Log "Installing prisma devDependencies..."])).
Proof.
  apply (unreadable_manifest_stops_install defaultHost quietExec
           (parseOf manifests) ScriptAdd unitDir schemaWorld).
  left. by vm_compute.
Defined.

(** ** Removing the tool *)






Lemma shim_outside_tool (cwd : string) :
  Fs.outside (toolPath cwd) (shimPath cwd) = true.
Proof.
  unfold Fs.outside, toolPath, shimPath, Path.under.
  set (modules := Path.join cwd "node_modules"). unfold Path.join.
  apply andb_true_intro. split.
  - apply negb_true_iff, String.eqb_neq. intros H.
    apply (f_equal (Path.stripPrefix modules)) in H.
    rewrite !stripPrefix_append in H. cbv in H. discriminate.
  - rewrite (append_assoc modules), stripPrefix_app, stripPrefix_append.
    reflexivity.
Qed.






(** ** Pruning: where it acts, and acting twice *)




(** X11: a second pruning of a unit finds nothing: it returns without narrating
    and leaves the world as the first pruning left it. *)
Theorem pruning_twice (serverless : json) (cwd : string) (w : world) :
  deleteUnusedEngines serverless cwd
    (worldOf (deleteUnusedEngines serverless cwd w))
  = Returned tt (worldOf (deleteUnusedEngines serverless cwd w)).
Proof.
  set (w1 := worldOf (deleteUnusedEngines serverless cwd w)).
  rewrite deleteUnusedEngines_run.
  assert (foundEngines serverless cwd (fs w1) = []) as ->.
  { destruct (foundEngines serverless cwd (fs w1)) as [|rel rels] eqn:Hfound;
      [done|].
    assert (Hrel : rel ∈ foundEngines serverless cwd (fs w1))
      by (rewrite Hfound; by left).
    apply foundEngines_spec in Hrel as [[c Hc] Hsel].
    unfold w1 in Hc. rewrite deleteUnusedEngines_fs in Hc.
    destruct (pruned serverless cwd (fs w) (Path.join cwd rel)) eqn:Hp; [done|].
    unfold pruned in Hp. by rewrite Hc, join_under, Hsel in Hp. }
  destruct w1 as [f t]. simpl. by rewrite app_nil_r.
Qed.

(** ** The schema copy *)

(** X12: when the schema source is a regular file, the unit's schema
    directory is absent or a directory (no file and no link stands there),
    the unit's schema is absent or a regular file, and it is not the source
    itself, the copy returns: the unit's schema then holds the content of
    the source, the schema directory is a directory (made when it was
    missing), and every other path is as before. *)
Theorem schema_copy_places_source (relative : string -> string -> string)
    (cwd prismaDir : string) (w : world) (content : string) :
  let targetDir := Path.join cwd "prisma" in
  let source := Path.join prismaDir "schema.prisma" in
  let target := Path.join targetDir "schema.prisma" in
  fs w !! source = Some (File content) ->
  fs w !! targetDir = None \/ fs w !! targetDir = Some Dir ->
  fs w !! target = None \/ (exists old, fs w !! target = Some (File old)) ->
  source <> target ->
  exists w',
    managePrismaSchema relative SchemaCopy cwd prismaDir w = Returned tt w'
    /\ fs w' !! target = Some (File content)
    /\ fs w' !! targetDir = Some Dir
    /\ forall q, q <> target -> q <> targetDir -> fs w' !! q = fs w !! q.
Proof.
  cbv zeta. unfold managePrismaSchema.
  set (td := Path.join cwd "prisma").
  set (src := Path.join prismaDir "schema.prisma").
  set (dst := Path.join td "schema.prisma").
  assert (Hne : dst <> td) by apply join_neq.
  intros Hsrc Htd Hdst Hsd.
  assert (Hst : src <> td).
  { intros Heq. rewrite Heq in Hsrc. destruct Htd as [H|H]; congruence. }
  assert (Hnd : fs w !! dst <> Some Dir).
  { destruct Hdst as [H | [old H]]; by rewrite H. }
  unfold bind at 1. unfold log at 1, emit at 1.
  unfold bind at 1. rewrite existsSync_run. cbn [fs trace].
  unfold bind at 1.
  destruct Htd as [Htd|Htd].
  - rewrite (follow_None _ _ _ Htd).
    unfold Fs.mkdirSync, bind, getFs, emit, putFs. cbn [fs trace]. rewrite Htd.
    rewrite (cpSync_run src td "schema.prisma" td (File content));
      cbn [fs trace]; try done.
    + eexists. split; [reflexivity|]. cbn [fs]. fold dst.
      split; [by rewrite lookup_insert_eq|].
      split; [by rewrite lookup_insert_ne, lookup_insert_eq|].
      intros q Hq Hq'. by rewrite !lookup_insert_ne.
    + apply dirname_schema.
    + by rewrite lookup_insert_ne.
    + apply follow_Dir. by rewrite lookup_insert_eq.
    + fold dst. by rewrite lookup_insert_ne.
    + apply onWay_Dir; [by rewrite lookup_insert_eq | done].
  - rewrite (follow_Dir _ _ _ Htd). unfold ret at 1.
    rewrite (cpSync_run src td "schema.prisma" td (File content));
      cbn [fs trace]; try done.
    + eexists. split; [reflexivity|]. cbn [fs]. fold dst.
      split; [by rewrite lookup_insert_eq|].
      split; [by rewrite lookup_insert_ne|].
      intros q Hq _. by rewrite lookup_insert_ne.
    + apply dirname_schema.
    + by apply follow_Dir.
    + by apply onWay_Dir.
Qed.

Lemma schema_copy_places_source_witness :
  exists w',
    managePrismaSchema twoUp SchemaCopy unitDir schemaDir schemaWorld
    = Returned tt w'
    /\ fs w' !! Path.join (Path.join unitDir "prisma") "schema.prisma"
       = Some (File "datasource db {}")
    /\ fs w' !! Path.join unitDir "prisma" = Some Dir
    /\ forall q,
         q <> Path.join (Path.join unitDir "prisma") "schema.prisma" ->
         q <> Path.join unitDir "prisma" ->
         fs w' !! q = fs schemaWorld !! q.
Proof.
  apply (schema_copy_places_source twoUp unitDir schemaDir schemaWorld
           "datasource db {}").
  - by vm_compute.
  - left. by vm_compute.
  - left. by vm_compute.
  - by vm_compute.
Defined.

(** X13: when the schema source is missing, the copy throws [ENOENT]; a schema
    directory that was missing in the unit has been made by then, and
    stays. *)
Theorem schema_copy_without_source (relative : string -> string -> string)
    (cwd prismaDir : string) (w : world) :
  fs w !! Path.join prismaDir "schema.prisma" = None ->
  fs w !! Path.join cwd "prisma" = None ->
  Path.join prismaDir "schema.prisma" <> Path.join cwd "prisma" ->
  managePrismaSchema relative SchemaCopy cwd prismaDir w
  = Thrown "ENOENT"
      (World (<[Path.join cwd "prisma" := Dir]> (fs w))
         (trace w
          ++ [Log "Copying Prisma schema..."; Mkdir (Path.join cwd "prisma")])).
Proof.
  intros Hsrc Htd Hne. unfold managePrismaSchema.
  unfold bind at 1. unfold log at 1, emit at 1.
  unfold bind at 1. rewrite existsSync_run. cbn [fs trace].
  rewrite (follow_None _ _ _ Htd).
  unfold bind at 1.
  unfold Fs.mkdirSync, bind, getFs, emit, putFs. cbn [fs trace]. rewrite Htd.
  unfold Fs.cpSync, bind, getFs, throw. cbn [fs trace].
  rewrite lookup_insert_ne, Hsrc by done.
  by rewrite <- app_assoc.
Qed.

Lemma schema_copy_without_source_witness :
  managePrismaSchema twoUp SchemaCopy unitDir schemaDir emptyWorld
  = Thrown "ENOENT"
      (World (<[Path.join unitDir "prisma" := Dir]> (fs emptyWorld))
         (trace emptyWorld
          ++ [Log "Copying Prisma schema..."; Mkdir (Path.join unitDir "prisma")])).
Proof.
  apply (schema_copy_without_source twoUp unitDir schemaDir emptyWorld);
    by vm_compute.
Defined.

Lemma managePrismaSchema_copy_again_witness :
  exists w2,
    managePrismaSchema twoUp SchemaCopy unitDir schemaDir
      (worldOf (managePrismaSchema twoUp SchemaCopy unitDir schemaDir schemaWorld))
    = Returned tt w2
    /\ fs w2
       = fs (worldOf (managePrismaSchema twoUp SchemaCopy unitDir schemaDir
                        schemaWorld)).
Proof.
  apply (managePrismaSchema_copy_again twoUp unitDir schemaDir schemaWorld).
  by vm_compute.
Defined.

(** ** What stands at the schema path of a unit *)

Lemma follow_Link (fuel : nat) (f : gmap string node) (p t : string) :
  f !! p = Some (Link t) ->
  Fs.follow (S fuel) f p
  = match f !! Path.resolve (Path.dirname p) t with
    | None =>
        if Fs.holds f (Path.resolve (Path.dirname p) t)
        then Fs.Reached (Path.resolve (Path.dirname p) t) Dir
        else Fs.Dangling (Path.resolve (Path.dirname p) t)
    | Some _ => Fs.follow fuel f (Path.resolve (Path.dirname p) t)
    end.
Proof. intros H. simpl. by rewrite H. Qed.

Lemma onWay_Link (fuel : nat) (f : gmap string node) (p t k : string) :
  f !! p = Some (Link t) ->
  Fs.onWay (S fuel) f p k
  = String.eqb p k || Fs.onWay fuel f (Path.resolve (Path.dirname p) t) k.
Proof. intros H. simpl. by rewrite H. Qed.

Lemma follow_File (fuel : nat) (f : gmap string node) (p c : string) :
  f !! p = Some (File c) -> Fs.follow fuel f p = Fs.Reached p (File c).
Proof. intros H. destruct fuel; simpl; by rewrite H. Qed.

Lemma holds_below (f : gmap string node) (p k rel : string) (n : node) :
  f !! k = Some n -> Path.under p k = Some rel -> Fs.holds f p = true.
Proof.
  intros Hk Hunder. unfold Fs.holds. apply existsb_exists.
  exists (k, n). split; [|simpl; by rewrite Hunder].
  by apply list_elem_of_In, elem_of_map_to_list.
Qed.

(** X17: a regular file where the schema directory of the unit is to be
    makes the copy throw [ENOTDIR], with nothing changed: [existsSync]
    finds the file, no directory is made, and [cpSync] cannot look for its
    destination in a file. *)
Theorem schema_copy_over_file (relative : string -> string -> string)
    (cwd prismaDir : string) (w : world) (stray : string) (n : node) :
  fs w !! Path.join cwd "prisma" = Some (File stray) ->
  fs w !! Path.join prismaDir "schema.prisma" = Some n ->
  managePrismaSchema relative SchemaCopy cwd prismaDir w
  = Thrown "ENOTDIR"
      (World (fs w) (trace w ++ [Log "Copying Prisma schema..."])).
Proof.
  intros Htd Hsrc. unfold managePrismaSchema.
  unfold bind at 1. unfold log at 1, emit at 1.
  unfold bind at 1. rewrite existsSync_run. cbn [fs trace].
  rewrite (follow_File _ _ _ _ Htd). unfold bind at 1. unfold ret at 1.
  unfold Fs.cpSync. unfold bind at 1, getFs at 1. cbn [fs trace].
  rewrite dirname_schema, join_under, Hsrc, Htd.
  by rewrite (follow_File _ _ _ _ Htd).
Qed.

Lemma schema_copy_over_file_witness :
  managePrismaSchema twoUp SchemaCopy unitDir schemaDir fileAtSchemaPath
  = Thrown "ENOTDIR"
      (World (fs fileAtSchemaPath)
         (trace fileAtSchemaPath ++ [Log "Copying Prisma schema..."])).
Proof.
  apply (schema_copy_over_file twoUp unitDir schemaDir fileAtSchemaPath
           "stray" (File "datasource db {}")); by vm_compute.
Defined.

(** X18: a link at the schema path of the unit that leads to nothing makes
    the copy throw [EEXIST], with nothing changed: [existsSync] follows the
    link and finds nothing, and [mkdirSync] then meets the link. *)
Theorem schema_copy_over_dangling_link (relative : string -> string -> string)
    (cwd prismaDir : string) (w : world) (t : string) :
  let targetDir := Path.join cwd "prisma" in
  let led := Path.resolve (Path.dirname targetDir) t in
  fs w !! targetDir = Some (Link t) ->
  fs w !! led = None ->
  Fs.holds (fs w) led = false ->
  managePrismaSchema relative SchemaCopy cwd prismaDir w
  = Thrown "EEXIST"
      (World (fs w) (trace w ++ [Log "Copying Prisma schema..."])).
Proof.
  cbv zeta. intros Htd Hled Hholds. unfold managePrismaSchema.
  unfold bind at 1. unfold log at 1, emit at 1.
  unfold bind at 1. rewrite existsSync_run. cbn [fs trace].
  change Fs.maxLinks with (S 39).
  rewrite (follow_Link _ _ _ _ Htd), Hled, Hholds.
  unfold bind at 1.
  unfold Fs.mkdirSync, bind, getFs, throw. cbn [fs trace]. by rewrite Htd.
Qed.

Lemma schema_copy_over_dangling_link_witness :
  managePrismaSchema twoUp SchemaCopy unitDir schemaDir danglingSchemaLink
  = Thrown "EEXIST"
      (World (fs danglingSchemaLink)
         (trace danglingSchemaLink ++ [Log "Copying Prisma schema..."])).
Proof.
  apply (schema_copy_over_dangling_link twoUp unitDir schemaDir
           danglingSchemaLink "../gone"); by vm_compute.
Defined.

(** X19: a link at the schema path of the unit that leads to the schema
    directory itself, as the symlink mode makes it, makes the copy throw
    [ERR_FS_CP_EINVAL], with nothing changed: the destination of the copy
    is then the source. *)
Theorem schema_copy_onto_source (relative : string -> string -> string)
    (cwd prismaDir : string) (w : world) (t : string) (n : node) :
  let targetDir := Path.join cwd "prisma" in
  fs w !! targetDir = Some (Link t) ->
  Path.resolve (Path.dirname targetDir) t = prismaDir ->
  fs w !! prismaDir = None \/ fs w !! prismaDir = Some Dir ->
  fs w !! Path.join prismaDir "schema.prisma" = Some n ->
  managePrismaSchema relative SchemaCopy cwd prismaDir w
  = Thrown "ERR_FS_CP_EINVAL"
      (World (fs w) (trace w ++ [Log "Copying Prisma schema..."])).
Proof.
  cbv zeta. intros Htd Hled Hdir Hsrc.
  assert (Hfollow : Fs.follow Fs.maxLinks (fs w) (Path.join cwd "prisma")
                    = Fs.Reached prismaDir Dir).
  { change Fs.maxLinks with (S 39). rewrite (follow_Link _ _ _ _ Htd), Hled.
    destruct Hdir as [Hdir|Hdir]; rewrite Hdir.
    - by rewrite (holds_below _ _ _ _ _ Hsrc (join_under _ _)).
    - by apply follow_Dir. }
  unfold managePrismaSchema.
  unfold bind at 1. unfold log at 1, emit at 1.
  unfold bind at 1. rewrite existsSync_run. cbn [fs trace].
  rewrite Hfollow. unfold bind at 1. unfold ret at 1.
  unfold Fs.cpSync. unfold bind at 1, getFs at 1. cbn [fs trace].
  rewrite dirname_schema, join_under, Hsrc, Htd, Hfollow, Hsrc.
  unfold Fs.checkPaths. by rewrite String.eqb_refl.
Qed.

Lemma schema_copy_onto_source_witness :
  managePrismaSchema twoUp SchemaCopy unitDir schemaDir
    (worldOf (managePrismaSchema twoUp SchemaSymlink unitDir schemaDir
                schemaWorld))
  = Thrown "ERR_FS_CP_EINVAL"
      (World
         (fs (worldOf (managePrismaSchema twoUp SchemaSymlink unitDir schemaDir
                         schemaWorld)))
         (trace (worldOf (managePrismaSchema twoUp SchemaSymlink unitDir
                            schemaDir schemaWorld))
          ++ [Log "Copying Prisma schema..."])).
Proof.
  apply (schema_copy_onto_source twoUp unitDir schemaDir
           (worldOf (managePrismaSchema twoUp SchemaSymlink unitDir schemaDir
                       schemaWorld))
           "../../prisma" (File "datasource db {}")).
  - by vm_compute.
  - by vm_compute.
  - left. by vm_compute.
  - by vm_compute.
Defined.

(** X20: a link at the schema path of the unit that leads to another
    directory makes the copy go through it: the content of the source is
    put under the name [schema.prisma] in that directory, the link stays,
    and nothing else changes. *)
Theorem schema_copy_through_link (relative : string -> string -> string)
    (cwd prismaDir : string) (w : world) (t content : string) :
  let targetDir := Path.join cwd "prisma" in
  let source := Path.join prismaDir "schema.prisma" in
  let led := Path.resolve (Path.dirname targetDir) t in
  let landed := Path.join led "schema.prisma" in
  fs w !! targetDir = Some (Link t) ->
  fs w !! led = Some Dir ->
  fs w !! source = Some (File content) ->
  landed <> source ->
  fs w !! landed = None \/ (exists old, fs w !! landed = Some (File old)) ->
  managePrismaSchema relative SchemaCopy cwd prismaDir w
  = Returned tt
      (World (<[landed := File content]> (fs w))
         (trace w
          ++ [ Log "Copying Prisma schema...";
               Cp source (Path.join targetDir "schema.prisma") ])).
Proof.
  cbv zeta. intros Htd Hled Hsrc Hne Hdest.
  set (td := Path.join cwd "prisma") in *.
  set (led := Path.resolve (Path.dirname td) t) in *.
  set (landed := Path.join led "schema.prisma") in *.
  assert (Hfollow : Fs.follow Fs.maxLinks (fs w) td = Fs.Reached led Dir).
  { change Fs.maxLinks with (S 39). rewrite (follow_Link _ _ _ _ Htd).
    fold led. rewrite Hled. by apply follow_Dir. }
  assert (Hway : Fs.onWay Fs.maxLinks (fs w) td landed = false).
  { change Fs.maxLinks with (S 39). rewrite (onWay_Link _ _ _ _ _ Htd).
    fold led. apply orb_false_intro.
    - apply String.eqb_neq. intros Heq. rewrite Heq in Htd.
      destruct Hdest as [H | [old H]]; congruence.
    - apply onWay_Dir; [done|]. intros Heq. symmetry in Heq.
      by apply join_neq in Heq. }
  unfold managePrismaSchema. fold td.
  unfold bind at 1. unfold log at 1, emit at 1.
  unfold bind at 1. rewrite existsSync_run. cbn [fs trace].
  rewrite Hfollow. unfold bind at 1. unfold ret at 1.
  rewrite (cpSync_run _ td "schema.prisma" led (File content));
    cbn [fs trace]; try done.
  - fold landed. by rewrite <- app_assoc.
  - apply dirname_schema.
  - fold landed. destruct Hdest as [H | [old H]]; by rewrite H.
Qed.

Lemma schema_copy_through_link_witness :
  managePrismaSchema twoUp SchemaCopy unitDir schemaDir sharedSchemaLink
  = Returned tt
      (World
         (<["/srv/shared/schema.prisma" := File "datasource db {}"]>
            (fs sharedSchemaLink))
         (trace sharedSchemaLink
          ++ [ Log "Copying Prisma schema...";
               Cp (Path.join schemaDir "schema.prisma")
                 (Path.join (Path.join unitDir "prisma") "schema.prisma") ])).
Proof.
  apply (schema_copy_through_link twoUp unitDir schemaDir sharedSchemaLink
           "/srv/shared" "datasource db {}").
  - by vm_compute.
  - by vm_compute.
  - by vm_compute.
  - by vm_compute.
  - left. by vm_compute.
Defined.

(** ** A run that fails *)






(** ** C5: the order of the steps *)












(** The run of C5 on two functions packaged one by one, a third being
    ignored: [api] is taken through its five steps before [worker] is
    started, the ignored [cron] is not touched, and in both units the
    engine of the other platform is pruned while the one of the target
    platform stays. *)
Example two_units_run :
  let w' := worldOf (onBeforeWebpackPackage twoUnitsHost generatingExec
                       (parseOf manifests) twoUp unitsWorld) in
  let engine (unit platform : string) :=
    Path.join (Path.join "/srv/app/.webpack" unit)
      ("node_modules/.prisma/client/libquery_engine-" +:+ platform
       +:+ "-openssl-3.0.x.so.node") in
  actionsOf (trace w')
  = [ Exec "npm install -D prisma" "/srv/app/.webpack/api";
      Mkdir "/srv/app/.webpack/api/prisma";
      Cp "/srv/app/prisma/schema.prisma"
        "/srv/app/.webpack/api/prisma/schema.prisma";
      Exec "npm run prisma:generate" "/srv/app/.webpack/api";
      Rm (engine "api" "debian");
      Exec "npm remove prisma" "/srv/app/.webpack/api";
      Rm "/srv/app/.webpack/api/node_modules/.bin/prisma";
      Rm "/srv/app/.webpack/api/node_modules/prisma";
      Exec "npm install -D prisma" "/srv/app/.webpack/worker";
      Mkdir "/srv/app/.webpack/worker/prisma";
      Cp "/srv/app/prisma/schema.prisma"
        "/srv/app/.webpack/worker/prisma/schema.prisma";
      Exec "npm run prisma:generate" "/srv/app/.webpack/worker";
      Rm (engine "worker" "debian");
      Exec "npm remove prisma" "/srv/app/.webpack/worker";
      Rm "/srv/app/.webpack/worker/node_modules/.bin/prisma";
      Rm "/srv/app/.webpack/worker/node_modules/prisma" ]
  /\ fs w' !! engine "api" "rhel" = Some (File "rhel")
  /\ fs w' !! engine "api" "debian" = None
  /\ fs w' !! engine "worker" "rhel" = Some (File "rhel")
  /\ fs w' !! engine "worker" "debian" = None
  /\ fs w' !! "/srv/app/.webpack/cron/prisma/schema.prisma" = None
  /\ fs w' !! "/srv/app/.webpack/api/prisma/schema.prisma"
     = Some (File "datasource db {}").
Proof. by vm_compute. Qed.
